(** * ai_chat_bot: context store, provider selection and provider clients

    A shallow embedding of [context_manager.py], of the provider selection
    at the top of [bot.py], and of the provider clients
    ([genapi_client.py], [ollama_client.py], [openai_client.py] and its two
    siblings), with the properties the specification states about them. *)

From Stdlib Require Import ZArith List Ascii String Lia DecimalString.
From Stdlib Require Import Floats.PrimFloat.
From stdpp Require Import gmap list.

Set Warnings "-register-all".
Local Open Scope Z_scope.

(** ** Python values shared by all modules *)

(** A Python [str] is a sequence of Unicode code points. *)
Definition pystr : Type := list N.

(** An ASCII literal of the source, as a Python string. *)
Definition str (s : string) : pystr :=
  List.map N_of_ascii (list_ascii_of_string s).

Definition pystr_eqb (a b : pystr) : bool := bool_decide (a = b).

(** [l[i:]] for a Python list: a negative start counts from the end and is
    clamped at the front, a start past the end yields the empty list. *)
Definition slice_from {A : Type} (i : Z) (l : list A) : list A :=
  let n := Z.of_nat (length l) in
  let start := if i <? 0 then Z.max (n + i) 0 else Z.min i n in
  drop (Z.to_nat start) l.

(** ** context_manager.py *)

Module ContextManager.

(** A stored message, the dict [{"role": role, "content": content}]. *)
Record message : Type := Message { role : pystr; content : pystr }.

#[export] Instance message_eq_dec : EqDecision message.
Proof. solve_decision. Defined.

(** [msg.get("role") == "system"] *)
Definition is_system (msg : message) : bool := pystr_eqb (role msg) (str "system").

(** The object state: [self.contexts] and [self.max_messages]. The order
    in which a Python dict enumerates its keys is not part of the model. *)
Record t : Type := Store {
  contexts : gmap Z (list message);
  max_messages : Z
}.

(** [ContextManager(max_messages)] *)
Definition init (max_messages : Z) : t :=
  {| contexts := ∅; max_messages := max_messages |}.

(** [if user_id not in self.contexts: self.contexts[user_id] = []] *)
Definition ensure (ctxs : gmap Z (list message)) (user_id : Z)
  : gmap Z (list message) :=
  match ctxs !! user_id with
  | None => <[user_id := []]> ctxs
  | Some _ => ctxs
  end.

(** [get_context]: the new state and the returned list. *)
Definition get_context (self : t) (user_id : Z) : t * list message :=
  let ctxs := ensure (contexts self) user_id in
  ({| contexts := ctxs; max_messages := max_messages self |},
   default [] (ctxs !! user_id)).

(** The loop that sorts the messages into [system_messages] and
    [other_messages], each [append] keeping the order of arrival. *)
Definition split_step (acc : list message * list message) (msg : message)
  : list message * list message :=
  if is_system msg then (acc.1 ++ [msg], acc.2) else (acc.1, acc.2 ++ [msg]).

Definition split_roles (l : list message) : list message * list message :=
  fold_left split_step l ([], []).

(** The body of [if len(self.contexts[user_id]) > self.max_messages:] *)
Definition evict (max_messages : Z) (l : list message) : list message :=
  let '(system_messages, other_messages) := split_roles l in
  let other_messages :=
    if Z.of_nat (length other_messages) >? max_messages
    then slice_from (- (max_messages - Z.of_nat (length system_messages)))
                    other_messages
    else other_messages in
  system_messages ++ other_messages.

(** What [add_message] leaves at [self.contexts[user_id]], given the list
    found there. *)
Definition appended (max_messages : Z) (old : list message) (msg : message)
  : list message :=
  let l := old ++ [msg] in
  if Z.of_nat (length l) >? max_messages then evict max_messages l else l.

Definition add_message (self : t) (user_id : Z) (role content : pystr) : t :=
  let ctxs := ensure (contexts self) user_id in
  let old := default [] (ctxs !! user_id) in
  {| contexts :=
       <[user_id := appended (max_messages self) old (Message role content)]> ctxs;
     max_messages := max_messages self |}.

(** [clear_context] *)
Definition clear_context (self : t) (user_id : Z) : t :=
  match contexts self !! user_id with
  | Some _ => {| contexts := delete user_id (contexts self);
                 max_messages := max_messages self |}
  | None => self
  end.

(** [get_user_ids]: [list(self.contexts.keys())] *)
Definition get_user_ids (self : t) : list Z := (map_to_list (contexts self)).*1.

(** [get_context_length]: [len(self.contexts.get(user_id, []))] *)
Definition get_context_length (self : t) (user_id : Z) : Z :=
  Z.of_nat (length (default [] (contexts self !! user_id))).

(** The context of a user as an observer sees it, without lazy creation. *)
Definition context_of (self : t) (user_id : Z) : list message :=
  default [] (contexts self !! user_id).

(** The calls a dispatcher can make on the store. *)
Inductive call : Type :=
| CallGet (user_id : Z)
| CallAdd (user_id : Z) (role content : pystr)
| CallClear (user_id : Z)
| CallUserIds
| CallLength (user_id : Z).

Definition step (self : t) (c : call) : t :=
  match c with
  | CallGet u => (get_context self u).1
  | CallAdd u r c => add_message self u r c
  | CallClear u => clear_context self u
  | CallUserIds => self
  | CallLength _ => self
  end.

Definition run (self : t) (cs : list call) : t := fold_left step cs self.

(** An [append] or a [get] for the given user. *)
Definition touches (user_id : Z) (c : call) : bool :=
  match c with
  | CallGet u | CallAdd u _ _ => bool_decide (u = user_id)
  | _ => false
  end.

End ContextManager.

(** ** Decoded JSON, as [resp.json()] hands it to the clients *)

Inductive json : Type :=
| JNull
| JBool (b : bool)
| JInt (z : Z)
| JFloat (f : PrimFloat.float)
| JStr (s : pystr)
| JList (l : list json)
| JDict (d : list (pystr * json)).

(** [repr] of the values whose text the development does not spell out
    (floats, lists, dicts); [str] of a list element reaches it only when a
    list of fragments holds something else than strings and integers. *)
Class Repr : Type := py_repr : json → pystr.

Module Py.

(** Truth value of an object, as [if x:] and [x or y] test it. *)
Definition truthy (v : json) : bool :=
  match v with
  | JNull => false
  | JBool b => b
  | JInt z => negb (z =? 0)
  | JFloat f => negb (PrimFloat.eqb f PrimFloat.zero)
  | JStr s => negb (bool_decide (s = []))
  | JList l => negb (bool_decide (length l = 0%nat))
  | JDict d => negb (bool_decide (length d = 0%nat))
  end.

(** [a or b] *)
Definition or_ (a b : json) : json := if truthy a then a else b.

(** [d.get(key, default)] on a dict. *)
Fixpoint get_default (d : list (pystr * json)) (key : pystr) (dflt : json) : json :=
  match d with
  | [] => dflt
  | (k, v) :: rest => if pystr_eqb k key then v else get_default rest key dflt
  end.

(** [d.get(key)] *)
Definition get (d : list (pystr * json)) (key : string) : json :=
  get_default d (str key) JNull.

(** [v == "literal"] *)
Definition eq_str (v : json) (lit : string) : bool :=
  match v with
  | JStr s => pystr_eqb s (str lit)
  | _ => false
  end.

(** The code points [str.strip()] removes: those for which
    [str.isspace()] holds. *)
Definition isspace (c : N) : bool :=
  ((9 <=? c) && (c <=? 13) || (28 <=? c) && (c <=? 32)
   || (c =? 133) || (c =? 160) || (c =? 5760)
   || (8192 <=? c) && (c <=? 8202) || (c =? 8232) || (c =? 8233)
   || (c =? 8239) || (c =? 8287) || (c =? 12288))%N.

Fixpoint lstrip (s : pystr) : pystr :=
  match s with
  | c :: rest => if isspace c then lstrip rest else s
  | [] => []
  end.

Definition rstrip (s : pystr) : pystr := rev (lstrip (rev s)).

(** [s.strip()] *)
Definition strip (s : pystr) : pystr := rstrip (lstrip s).

(** [sep.join(parts)] *)
Fixpoint join (sep : pystr) (parts : list pystr) : pystr :=
  match parts with
  | [] => []
  | [p] => p
  | p :: rest => p ++ sep ++ join sep rest
  end.

(** [str(x)] *)
Definition str_of `{Repr} (v : json) : pystr :=
  match v with
  | JStr s => s
  | JNull => str "None"
  | JBool true => str "True"
  | JBool false => str "False"
  | JInt z => str (NilZero.string_of_int (Z.to_int z))
  | _ => py_repr v
  end.

End Py.

(** ** Exceptions and what a call leaves behind *)

(** The exceptions a client's [try] block can see; every one of them
    derives from [Exception]. *)
Inductive py_exn : Type :=
| RequestsConnectTimeout      (* requests: both a Timeout and a ConnectionError *)
| RequestsReadTimeout
| RequestsConnectionError
| RequestsHTTPError
| RequestsOther               (* any other requests.RequestException *)
| HttpxTimeout                (* httpx.TimeoutException *)
| HttpxRequestError           (* any other httpx.RequestError *)
| OpenAIAuthenticationError
| OpenAIRateLimitError
| OpenAIAPIError              (* any other openai.APIError *)
| KeyError
| IndexError
| AttributeError
| ValueError
| UnboundLocalError
| OtherException.

(** The classes the [except] clauses of the clients name. *)
Inductive exn_class : Type :=
| ClsRequestsTimeout
| ClsRequestsConnectionError
| ClsRequestsHTTPError
| ClsRequestsRequestException
| ClsKeyError
| ClsHttpxTimeoutException
| ClsHttpxRequestError
| ClsOpenAIAuthenticationError
| ClsOpenAIRateLimitError
| ClsOpenAIAPIError
| ClsException.

(** [isinstance(e, cls)], the test an [except cls:] clause makes. *)
Definition isinstance (e : py_exn) (cls : exn_class) : bool :=
  match cls, e with
  | ClsException, _ => true
  | ClsRequestsTimeout, (RequestsConnectTimeout | RequestsReadTimeout) => true
  | ClsRequestsConnectionError, (RequestsConnectTimeout | RequestsConnectionError) => true
  | ClsRequestsHTTPError, RequestsHTTPError => true
  | ClsRequestsRequestException,
    (RequestsConnectTimeout | RequestsReadTimeout | RequestsConnectionError
     | RequestsHTTPError | RequestsOther) => true
  | ClsKeyError, KeyError => true
  | ClsHttpxTimeoutException, HttpxTimeout => true
  | ClsHttpxRequestError, (HttpxTimeout | HttpxRequestError) => true
  | ClsOpenAIAuthenticationError, OpenAIAuthenticationError => true
  | ClsOpenAIRateLimitError, OpenAIRateLimitError => true
  | ClsOpenAIAPIError,
    (OpenAIAuthenticationError | OpenAIRateLimitError | OpenAIAPIError) => true
  | _, _ => false
  end.

(** How a call ends: with a value, or with an exception leaving it. *)
Inductive completion (A : Type) : Type :=
| Returned (v : A)
| Raised (e : py_exn).
Arguments Returned {A} v.
Arguments Raised {A} e.

(** What an HTTP call gives back: an exception, or a response with its
    status code and what [resp.json()] then yields. *)
Record http_response : Type := Response {
  status_code : Z;
  json_body : py_exn + json
}.

Inductive http_result : Type :=
| HttpRaises (e : py_exn)
| HttpResponds (resp : http_response).

(** ** genapi_client.py *)

Module GenAPI.

(** *** [_extract_text_from_output] *)

(** A block of statements either executes a [return] or falls through
    to the statement after it. *)
Inductive flow : Type :=
| Return (r : option pystr)
| Fallthrough.

Definition seq (a b : flow) : flow :=
  match a with
  | Return r => Return r
  | Fallthrough => b
  end.
Notation "a >>> b" := (seq a b) (at level 65, right associativity).

(** [for x in l: body] *)
Fixpoint for_each {A : Type} (l : list A) (body : A → flow) : flow :=
  match l with
  | [] => Fallthrough
  | x :: rest => body x >>> for_each rest body
  end.

(** [s.strip() or None] *)
Definition strip_or_none (s : pystr) : option pystr :=
  match Py.strip s with
  | [] => None
  | t => Some t
  end.

(** [if isinstance(v, str): return v.strip() or None] *)
Definition return_if_str (v : json) : flow :=
  match v with
  | JStr s => Return (strip_or_none s)
  | _ => Fallthrough
  end.

(** The body of the loops over content parts:
    [if isinstance(part, dict) and part.get("type") == "text": ...] *)
Definition text_part (part : json) : flow :=
  match part with
  | JDict p =>
      if Py.eq_str (Py.get p "type") "text"
      then return_if_str (Py.get p "text")
      else Fallthrough
  | _ => Fallthrough
  end.

(** [msg = ...; if isinstance(msg, dict): c = msg.get("content"); ...] *)
Definition message_content (msg : json) : flow :=
  match msg with
  | JDict m => return_if_str (Py.get m "content")
  | _ => Fallthrough
  end.

(** The body of the first loop over a list of items. *)
Definition first_pass (item : json) : flow :=
  match item with
  | JDict d =>
      message_content (Py.get d "message") >>>
      let text := Py.or_ (Py.get d "text") (Py.get d "content") in
      return_if_str text >>>
      match text with
      | JList parts => for_each parts text_part
      | _ => Fallthrough
      end
  | _ => Fallthrough
  end.

(** The body of the second loop, over messages with role assistant. *)
Definition second_pass (item : json) : flow :=
  match item with
  | JDict d =>
      if Py.eq_str (Py.get d "role") "assistant"
      then
        let c := Py.get d "content" in
        return_if_str c >>>
        match c with
        | JList parts => for_each parts text_part
        | _ => Fallthrough
        end
      else Fallthrough
  | _ => Fallthrough
  end.

(** The branch [if isinstance(output, dict):] up to its [return None]. *)
Definition from_dict (d : list (pystr * json)) : flow :=
  let text := Py.or_ (Py.or_ (Py.get d "text") (Py.get d "content"))
                     (Py.get d "message") in
  return_if_str text >>>
  match Py.get d "choices" with
  | JList (first :: _) =>
      let msg := match first with
                 | JDict c => Py.get c "message"
                 | _ => JNull
                 end in
      message_content msg
  | _ => Fallthrough
  end >>>
  match Py.get d "content" with
  | JList parts => for_each parts text_part
  | _ => Fallthrough
  end >>>
  Return None.

(** The branch [if isinstance(output, list):] up to its [return None]. *)
Definition from_list `{Repr} (l : list json) : flow :=
  match l with
  | JStr _ :: _ =>
      Return (strip_or_none (Py.join (str " ") (List.map Py.str_of l)))
  | _ => Fallthrough
  end >>>
  for_each l first_pass >>>
  for_each l second_pass >>>
  Return None.

Definition result_of (f : flow) : option pystr :=
  match f with
  | Return r => r
  | Fallthrough => None
  end.

Definition _extract_text_from_output `{Repr} (output : json) : option pystr :=
  match output with
  | JNull => None
  | JStr s => strip_or_none s
  | JList l => result_of (from_list l)
  | JDict d => result_of (from_dict d)
  | _ => None
  end.

(** *** [GenAPIClient] *)

(** The places where the client returns [None], named after the failure
    each of them logs. *)
Inductive failure : Type :=
| EndpointNotFound
| AuthFailure
| InsufficientBalance
| ApiError
| ExtractionFailure
| JobFailed
| MissingRequestId
| PollTimeout
| Timeout
| ConnectionFailure
| UnexpectedError.

Inductive outcome : Type :=
| Text (s : pystr)
| Absent (why : failure).

(** The [Optional[str]] the caller receives. *)
Definition to_optional (o : outcome) : option pystr :=
  match o with
  | Text s => Some s
  | Absent _ => None
  end.

(** The two polling attributes of the client, in ticks of the monotonic
    clock. *)
Record config : Type := Config {
  poll_interval : Z;
  poll_max_wait : Z
}.

(** Everything outside the client: the answer to the submit, the answer
    to the [i]-th status request for a request id, the reading of
    [time.monotonic()] when polling is entered, and the time that passes
    beyond the requested sleeps (oversleeping before the first check, and
    in round [i] the request itself with any oversleeping after it). *)
Record world : Type := World {
  post_result : http_result;
  get_result : json → nat → http_result;
  poll_entry : Z;
  wake_delay : Z;
  elapsed : nat → Z
}.

(** What the client does to the outside, in order. *)
Inductive event : Type :=
| Post
| Sleep (d : Z)
| Get (request_id : json) (at_time : Z).

(** A run: the events so far, and how the call ended ([None] while the
    loop is still going round when the fuel is spent). *)
Definition run : Type := list event * option (completion outcome).

(** [if text: return text] for the [Optional[str]] of the extractor. *)
Definition truthy_text (text : option pystr) : option pystr :=
  match text with
  | Some (c :: t) => Some (c :: t)
  | _ => None
  end.

(** [for key in ("result", "output", "full_response", "response"): ...]
    and the [return None] after the loop. *)
Fixpoint scan_keys `{Repr} (d : list (pystr * json)) (keys : list string) : outcome :=
  match keys with
  | [] => Absent ExtractionFailure
  | key :: rest =>
      match truthy_text (_extract_text_from_output (Py.get d key)) with
      | Some text => Text text
      | None => scan_keys d rest
      end
  end.

(** [data.get(...)] on what [resp.json()] gave: only a dict has [get]. *)
Definition as_dict (data : json) : completion (list (pystr * json)) :=
  match data with
  | JDict d => Returned d
  | _ => Raised AttributeError
  end.

(** The [try] block of one polling round: [Some o] when it returns [o],
    [None] when it runs to its end. *)
Definition poll_body `{Repr} (r : http_result) : completion (option outcome) :=
  match r with
  | HttpRaises e => Raised e
  | HttpResponds resp =>
      if negb (status_code resp =? 200) then Returned (Some (Absent ApiError))
      else
        match json_body resp with
        | inl e => Raised e
        | inr data =>
            match as_dict data with
            | Raised e => Raised e
            | Returned d =>
                let status := Py.get d "status" in
                if Py.eq_str status "success"
                then Returned (Some (scan_keys d
                       ["result"; "output"; "full_response"; "response"]%string))
                else if Py.eq_str status "failed"
                then Returned (Some (Absent JobFailed))
                else Returned None
            end
        end
  end.

(** The round with its [except Exception as e:] clause, which logs and
    goes on. *)
Definition poll_try `{Repr} (r : http_result) : completion (option outcome) :=
  match poll_body r with
  | Raised e => if isinstance e ClsException then Returned None else Raised e
  | done => done
  end.

(** [time.sleep(d)] refuses a negative length. *)
Definition sleep (d : Z) : completion unit :=
  if d <? 0 then Raised ValueError else Returned tt.

(** [while time.monotonic() < deadline:] with [now] the reading of the
    clock at the test and [i] the number of rounds made. *)
Fixpoint poll_loop `{Repr} (fuel : nat) (cfg : config) (w : world)
    (request_id : json) (deadline now : Z) (i : nat) : run :=
  match fuel with
  | O => ([], None)
  | S fuel' =>
      if now <? deadline then
        match poll_try (get_result w request_id i) with
        | Raised e => ([Get request_id now], Some (Raised e))
        | Returned (Some o) => ([Get request_id now], Some (Returned o))
        | Returned None =>
            match sleep (poll_interval cfg) with
            | Raised e => ([Get request_id now], Some (Raised e))
            | Returned _ =>
                let woke := now + Z.max 0 (elapsed w i) + poll_interval cfg in
                let '(evs, r) :=
                  poll_loop fuel' cfg w request_id deadline woke (S i) in
                (Get request_id now :: Sleep (poll_interval cfg) :: evs, r)
            end
        end
      else ([], Some (Returned (Absent PollTimeout)))
  end.

Definition _poll_until_done `{Repr} (fuel : nat) (cfg : config) (w : world)
    (request_id : json) : run :=
  match sleep (poll_interval cfg) with
  | Raised e => ([], Some (Raised e))
  | Returned _ =>
      let start := poll_entry w + poll_interval cfg + Z.max 0 (wake_delay w) in
      let deadline := start + poll_max_wait cfg in
      let '(evs, r) := poll_loop fuel cfg w request_id deadline start 0 in
      (Sleep (poll_interval cfg) :: evs, r)
  end.

(** The [try] block of [generate_response], from the POST on. *)
Definition submit_body `{Repr} (fuel : nat) (cfg : config) (w : world) : run :=
  match post_result w with
  | HttpRaises e => ([Post], Some (Raised e))
  | HttpResponds resp =>
      let code := status_code resp in
      if code =? 404 then ([Post], Some (Returned (Absent EndpointNotFound)))
      else if code =? 401 then ([Post], Some (Returned (Absent AuthFailure)))
      else if code =? 402 then ([Post], Some (Returned (Absent InsufficientBalance)))
      else if code >=? 400 then ([Post], Some (Returned (Absent ApiError)))
      else
        match json_body resp with
        | inl e => ([Post], Some (Raised e))
        | inr data =>
            match as_dict data with
            | Raised e => ([Post], Some (Raised e))
            | Returned d =>
                let status := Py.get d "status" in
                if Py.eq_str status "success" then
                  match truthy_text (_extract_text_from_output (Py.get d "output")) with
                  | Some text => ([Post], Some (Returned (Text text)))
                  | None => ([Post], Some (Returned (Absent ExtractionFailure)))
                  end
                else if Py.eq_str status "failed"
                then ([Post], Some (Returned (Absent JobFailed)))
                else
                  match Py.get d "request_id" with
                  | JNull => ([Post], Some (Returned (Absent MissingRequestId)))
                  | request_id =>
                      let '(evs, r) := _poll_until_done fuel cfg w request_id in
                      (Post :: evs, r)
                  end
            end
        end
  end.

(** The three [except] clauses of [generate_response]. *)
Definition handle (c : completion outcome) : completion outcome :=
  match c with
  | Raised e =>
      if isinstance e ClsHttpxTimeoutException then Returned (Absent Timeout)
      else if isinstance e ClsHttpxRequestError then Returned (Absent ConnectionFailure)
      else if isinstance e ClsException then Returned (Absent UnexpectedError)
      else Raised e
  | Returned o => Returned o
  end.

Definition generate_response `{Repr} (fuel : nat) (cfg : config) (w : world) : run :=
  let '(evs, r) := submit_body fuel cfg w in
  (evs, handle <$> r).

(** A status response that ends the polling: any status code other than
    200, or a body whose status is success or failed. *)
Definition terminal (r : http_result) : bool :=
  match r with
  | HttpRaises _ => false
  | HttpResponds resp =>
      negb (status_code resp =? 200)
      || match json_body resp with
         | inr (JDict d) =>
             Py.eq_str (Py.get d "status") "success"
             || Py.eq_str (Py.get d "status") "failed"
         | _ => false
         end
  end.

(** The failure the specification names for a rejected submit. *)
Definition http_failure (code : Z) : failure :=
  if code =? 401 then AuthFailure
  else if code =? 402 then InsufficientBalance
  else if code =? 404 then EndpointNotFound
  else ApiError.

(** The times at which status requests were made. *)
Definition get_times (evs : list event) : list Z :=
  omap (λ ev, match ev with Get _ t => Some t | _ => None end) evs.

End GenAPI.

(** ** ollama_client.py *)

Module Ollama.

(** How the [try] block of [generate_response] ends: with the value it
    returns, or with an exception, together with whether the locals
    [response] and [result] had been assigned by then. *)
Inductive body_end : Type :=
| Done (v : json)
| Failed (e : py_exn) (response_bound result_bound : bool).

(** [response.raise_for_status()] raises for the codes 400 to 599. *)
Definition is_http_error (code : Z) : bool := (400 <=? code) && (code <? 600).

Definition body (call : http_result) : body_end :=
  match call with
  | HttpRaises e => Failed e false false
  | HttpResponds response =>
      if is_http_error (status_code response)
      then Failed RequestsHTTPError true false
      else
        match json_body response with
        | inl e => Failed e true false
        | inr result =>
            (* result.get("message", {}).get("content") *)
            match result with
            | JDict d =>
                match Py.get_default d (str "message") (JDict []) with
                | JDict m => Done (Py.get m "content")
                | _ => Failed AttributeError true true
                end
            | _ => Failed AttributeError true true
            end
        end
  end.

(** Reading a local in a log message: an unassigned one raises. *)
Definition read_local (bound : bool) : completion json :=
  if bound then Returned JNull else Raised UnboundLocalError.

(** The six [except] clauses, in order. The clause for [HTTPError] logs
    [response.status_code], the clause for [KeyError] logs [result]. *)
Definition handlers (e : py_exn) (response_bound result_bound : bool)
  : completion json :=
  if isinstance e ClsRequestsTimeout then Returned JNull
  else if isinstance e ClsRequestsConnectionError then Returned JNull
  else if isinstance e ClsRequestsHTTPError then read_local response_bound
  else if isinstance e ClsRequestsRequestException then Returned JNull
  else if isinstance e ClsKeyError then read_local result_bound
  else if isinstance e ClsException then Returned JNull
  else Raised e.

Definition generate_response (call : http_result) : completion json :=
  match body call with
  | Done v => Returned v
  | Failed e response_bound result_bound => handlers e response_bound result_bound
  end.

(** The exception the [try] block ends with, if any. *)
Definition failure_of (call : http_result) : option py_exn :=
  match body call with
  | Done _ => None
  | Failed e _ _ => Some e
  end.

(** What requests documents about its exceptions: [HTTPError] comes from
    [raise_for_status] and not from sending the request, and neither
    sending nor decoding raises [KeyError]. *)
Definition requests_contract (call : http_result) : bool :=
  match call with
  | HttpRaises e => negb (isinstance e ClsRequestsHTTPError) && negb (isinstance e ClsKeyError)
  | HttpResponds response =>
      match json_body response with
      | inl e => negb (isinstance e ClsKeyError)
      | inr _ => true
      end
  end.

End Ollama.

(** ** openai_client.py, deepseek_client.py, proxyapi_client.py *)

Module OpenAICompat.

(** The three clients share their [generate_response] line by line; they
    differ in the key and base URL the SDK client is built with. *)
Inductive provider : Type := OpenAI | DeepSeek | ProxyAPI.

(** What [self.client.chat.completions.create] with the parameters built gives back: an
    exception, or a response whose choices each carry
    [message.content], an [Optional[str]]. *)
Inductive sdk_result : Type :=
| SdkRaises (e : py_exn)
| SdkResponds (choices : list (option pystr)).

(** The [try] block: [return response.choices[0].message.content]. *)
Definition body (r : sdk_result) : completion (option pystr) :=
  match r with
  | SdkRaises e => Raised e
  | SdkResponds [] => Raised IndexError
  | SdkResponds (first :: _) => Returned first
  end.

(** The four [except] clauses, in order. *)
Definition handle (c : completion (option pystr)) : completion (option pystr) :=
  match c with
  | Raised e =>
      if isinstance e ClsOpenAIAuthenticationError then Returned None
      else if isinstance e ClsOpenAIRateLimitError then Returned None
      else if isinstance e ClsOpenAIAPIError then Returned None
      else if isinstance e ClsException then Returned None
      else Raised e
  | Returned v => Returned v
  end.

Definition generate_response (p : provider) (r : sdk_result)
  : completion (option pystr) :=
  handle (body r).

End OpenAICompat.

(** ** bot.py: the choice of the active provider at start-up *)

Module Bot.

(** The three [raise RuntimeError(...)] statements of the selection, by
    what their messages say. *)
Inductive startup_error : Type :=
| UnknownProviderKey
| ProviderNotConstructible
| NoProviderAvailable.

Definition startup (A : Type) : Type := startup_error + A.
Definition raise {A : Type} (e : startup_error) : startup A := inl e.
Definition and_then {A B : Type} (a : startup A) (k : A → startup B) : startup B :=
  match a with
  | inl e => inl e
  | inr x => k x
  end.

Section Selection.

(** A constructed client object; an object of these classes is true. *)
Context {Client : Type}.

(** The five module-level variables, [None] where the constructor
    raised. *)
Record clients : Type := Clients {
  ollama_client : option Client;
  openai_client : option Client;
  deepseek_client : option Client;
  genapi_client : option Client;
  proxyapi_client : option Client
}.

(** [_active_provider]: [(key, name, client)]. *)
Definition active : Type := pystr * pystr * Client.

(** The list the [for] loop walks; [provider_map] has the same five
    entries under their keys. *)
Definition entries (cs : clients) : list (pystr * pystr * option Client) :=
  [ (str "ollama", str "Ollama", ollama_client cs);
    (str "openai", str "OpenAI", openai_client cs);
    (str "deepseek", str "DeepSeek", deepseek_client cs);
    (str "genapi", str "GenAPI", genapi_client cs);
    (str "proxyapi", str "ProxyAPI", proxyapi_client cs) ].

(** [provider_map.get(key)] *)
Fixpoint map_get (m : list (pystr * pystr * option Client)) (key : pystr)
  : option (pystr * option Client) :=
  match m with
  | [] => None
  | (k, name, client) :: rest =>
      if pystr_eqb k key then Some (name, client) else map_get rest key
  end.

(** The [for ... if client: ... break] loop. *)
Fixpoint first_available (l : list (pystr * pystr * option Client)) : option active :=
  match l with
  | [] => None
  | (key, name, client) :: rest =>
      match client with
      | Some c => Some (key, name, c)
      | None => first_available rest
      end
  end.

(** [if AI_PROVIDER:] *)
Definition given (AI_PROVIDER : option pystr) : option pystr :=
  match AI_PROVIDER with
  | Some (c :: k) => Some (c :: k)
  | _ => None
  end.

(** The statements from [_active_provider = None] to the last
    [raise]. In the branch of an explicit key the second [raise]
    stands after the first one in the same block. *)
Definition select (AI_PROVIDER : option pystr) (cs : clients) : startup active :=
  and_then
    (match given AI_PROVIDER with
     | Some key =>
         let provider_map := entries cs in
         match map_get provider_map key with
         | Some (name, Some client) => inr (Some (key, name, client))
         | found =>
             match found with
             | None =>
                 and_then (raise UnknownProviderKey) (λ _ : unit,
                 and_then (raise ProviderNotConstructible) (λ _ : unit,
                 inr None))
             | Some _ => inr None
             end
         end
     | None => inr (first_available (entries cs))
     end)
    (λ _active_provider,
       match _active_provider with
       | Some a => inr a
       | None => raise NoProviderAvailable
       end).

(** The key of the chosen provider. *)
Definition selected_key (r : startup active) : option pystr :=
  match r with
  | inr (key, _, _) => Some key
  | inl _ => None
  end.

End Selection.

Arguments clients : clear implicits.
Arguments active : clear implicits.

End Bot.

Module ContextSpec.
Import ContextManager.

(** The [k] latest elements of a list (none when [k] is not positive). *)
Definition last_n {A : Type} (k : Z) (l : list A) : list A :=
  drop (Z.to_nat (Z.of_nat (length l) - k)) l.

(** The eviction as the specification words it: the system messages,
    then the [max_messages - count(system)] latest other messages. *)
Definition spec_eviction (max_messages : Z) (l : list message) : list message :=
  let system_messages := List.filter is_system l in
  let other_messages := List.filter (λ m, negb (is_system m)) l in
  system_messages
  ++ last_n (max_messages - Z.of_nat (length system_messages)) other_messages.

End ContextSpec.

Module Samples.
Import ContextManager.

Definition sys_msg (c : string) : message := Message (str "system") (str c).
Definition user_msg (c : string) : message := Message (str "user") (str c).

(** A store with bound 2 holding a user message, a system message in the
    middle and another user message. *)
Definition mid_system : t :=
  {| contexts := {[ 7 := [user_msg "a"; sys_msg "s"; user_msg "b"] ]};
     max_messages := 2 |}.

(** A store with the histories of two users. *)
Definition two_users : t :=
  add_message (add_message (init 20) 1 (str "user") (str "hi"))
              2 (str "user") (str "hello").

(** Calls that neither append to nor get the context of user 1. *)
Definition other_calls : list call :=
  [CallAdd 2 (str "assistant") (str "ok"); CallGet 3; CallClear 1;
   CallLength 1; CallUserIds; CallClear 2].

(** A store with bound 2 after a system message and two user messages. *)
Definition pinned : t :=
  add_message (add_message (add_message (init 2)
    1 (str "system") (str "s")) 1 (str "user") (str "a")) 1 (str "user") (str "b").

End Samples.


Module BotSamples.
Import Bot.

(** Only the Ollama client could be built. *)
Definition only_ollama : clients nat :=
  {| ollama_client := Some 1%nat; openai_client := None; deepseek_client := None;
     genapi_client := None; proxyapi_client := None |}.

(** Only the DeepSeek client could be built. *)
Definition only_deepseek : clients nat :=
  {| ollama_client := None; openai_client := None; deepseek_client := Some 3%nat;
     genapi_client := None; proxyapi_client := None |}.

End BotSamples.

Module JsonSamples.

(** A dict literal with ASCII keys, and a string literal. *)
Definition obj (fields : list (string * json)) : json :=
  JDict (List.map (λ kv, (str kv.1, kv.2)) fields).
Definition txt (s : string) : json := JStr (str s).

Local Open Scope string_scope.

(** [{"choices":[{"message":{"content":"hi"}}]}] *)
Definition openai_shaped : json :=
  obj [("choices", JList [obj [("message", obj [("content", txt "hi")])]])].

(** [{"content":[{"type":"text","text":"x"}]}] *)
Definition content_parts : json :=
  obj [("content", JList [obj [("type", txt "text"); ("text", txt "x")]])].

(** Nestings that miss the expected shape at some level. *)
Definition malformed : list json :=
  [ obj [("choices", obj [("message", obj [("content", txt "hi")])])];
    obj [("choices", JList [obj [("message", txt "hi")]])];
    obj [("choices", JList [])];
    obj [("choices", JList [JList [txt "hi"]])];
    obj [("content", JList [obj [("type", txt "text")]])];
    obj [("content", JList [obj [("type", txt "image"); ("text", txt "x")]])];
    obj [("content", obj [("text", txt "x")])];
    JList [JList [txt "a"]];
    JList [obj [("message", obj [("content", JInt 5)])]];
    JList [obj [("role", txt "user"); ("content", JList [txt "x"])]];
    JList [JInt 1; txt "a"] ].

(** [{"status":"processing","request_id":42}] and
    [{"status":"success","result":"done"}] *)
Definition processing_42 : json :=
  obj [("status", txt "processing"); ("request_id", JInt 42)].
Definition success_done : json :=
  obj [("status", txt "success"); ("result", txt "done")].
Definition still_processing : json := obj [("status", txt "processing")].

End JsonSamples.

Module FlowShape.
Import GenAPI.

(** A block that never returns an empty string. *)
Definition proper (f : flow) : Prop :=
  match f with
  | Return (Some []) => False
  | _ => True
  end.

End FlowShape.

Module GenAPISamples.
Import GenAPI JsonSamples.

(** A [repr] for the sample runs; no sample reaches it. *)
Definition sample_repr : Repr := λ _, str "?".

(** The default polling attributes, in seconds. *)
Definition defaults : config := {| poll_interval := 2; poll_max_wait := 120 |}.

Definition ok (data : json) : http_result :=
  HttpResponds {| status_code := 200; json_body := inr data |}.

(** The job is accepted, and the first status request finds it done. *)
Definition done_at_first_poll : world :=
  {| post_result := ok processing_42;
     get_result := λ _ _, ok success_done;
     poll_entry := 1000; wake_delay := 0; elapsed := λ _, 1 |}.

(** The job is accepted and never leaves the processing state; one
    status request in three fails on the network. *)
Definition never_done : world :=
  {| post_result := ok processing_42;
     get_result := λ _ i, if (i mod 3 =? 0)%nat then HttpRaises HttpxRequestError
                          else ok still_processing;
     poll_entry := 1000; wake_delay := 0; elapsed := λ _, 1 |}.

End GenAPISamples.

Module StoreCalls.
Import ContextManager.

(** A call that names the given user. *)
Definition concerns (user_id : Z) (c : call) : bool :=
match c with
| CallGet u | CallAdd u _ _ | CallClear u | CallLength u => bool_decide (u = user_id)
| CallUserIds => false
end.

(** Calls made for users 2 and 3 only. *)
Definition calls_of_others : list call :=
[CallAdd 2 (str "user") (str "x"); CallGet 3; CallClear 2; CallLength 3;
 CallAdd 3 (str "system") (str "y"); CallUserIds].

End StoreCalls.

(** ** More of Python's strings *)

Module PyStr.

(** [s.startswith(sub)] *)
Fixpoint starts_with (sub s : pystr) : bool :=
match sub, s with
| [], _ => true
| _ :: _, [] => false
| a :: sub', b :: s' => (a =? b)%N && starts_with sub' s'
end.

(** [sub in s] *)
Fixpoint contains (sub s : pystr) : bool :=
starts_with sub s
|| match s with
   | [] => false
   | _ :: s' => contains sub s'
   end.

(** The code point of ["/"]. *)
Definition slash : N := 47.

Fixpoint lstrip_slash (s : pystr) : pystr :=
match s with
| c :: rest => if (c =? slash)%N then lstrip_slash rest else s
| [] => []
end.

(** [s.rstrip("/")] *)
Definition rstrip_slash (s : pystr) : pystr := rev (lstrip_slash (rev s)).

(** [a or b] for two strings. *)
Definition or_ (a b : pystr) : pystr :=
match a with
| [] => b
| _ => a
end.

(** [a or b] where [a] may be [None] and [b] is a string. *)
Definition opt_or (a : option pystr) (b : pystr) : pystr :=
match a with
| Some (c :: s) => c :: s
| _ => b
end.

(** [a or b] where both may be [None]. *)
Definition opt_or_opt (a b : option pystr) : option pystr :=
match a with
| Some (c :: s) => Some (c :: s)
| _ => b
end.

End PyStr.

(** ** genapi_client.py: construction, URLs and the message format *)

Module GenAPIClient.

(** [GENAPI_NATIVE_BASE] *)
Definition GENAPI_NATIVE_BASE : pystr := str "https://api.gen-api.ru/api/v1".

(** The attributes [__init__] sets. *)
Record client : Type := Client {
  api_key : pystr;
  base_url : pystr;
  timeout : Z;
  polling : GenAPI.config
}.

(** [GenAPIClient(api_key, base_url, timeout, poll_interval, poll_max_wait)],
    with the two values it reads from [config]: [GENAPI_API_KEY], which
    may be [None], and [GENAPI_BASE_URL]. *)
Definition init (GENAPI_API_KEY : option pystr) (GENAPI_BASE_URL : pystr)
    (api_key base_url : option pystr) (timeout : Z) (polling : GenAPI.config)
  : completion client :=
  let api_key := PyStr.opt_or_opt api_key GENAPI_API_KEY in
  let base_url :=
    PyStr.or_
      (PyStr.rstrip_slash
         (Py.strip (PyStr.or_ (PyStr.opt_or base_url GENAPI_BASE_URL) [])))
      GENAPI_NATIVE_BASE in
  let base_url :=
    if PyStr.contains (str "openai") base_url then GENAPI_NATIVE_BASE else base_url in
  match api_key with
  | Some (c :: k) =>
      Returned {| api_key := c :: k; base_url := base_url;
                  timeout := timeout; polling := polling |}
  | _ => Raised ValueError
  end.

(** [_request_url] *)
Definition _request_url (self : client) (model : pystr) : pystr :=
  let base := PyStr.rstrip_slash (base_url self) in
  if PyStr.contains (str "/networks/") base then base
  else base ++ str "/networks/" ++ model.

(** [_status_url] *)
Definition _status_url `{Repr} (self : client) (request_id : json) : pystr :=
  let base := PyStr.rstrip_slash (base_url self) in
  base ++ str "/request/get/" ++ Py.str_of request_id.

(** One round of the loop of [_messages_to_genapi], on the dict [m]. *)
Definition convert_message (m : list (pystr * json)) : json :=
  let role := Py.get_default m (str "role") (JStr (str "user")) in
  let content := Py.get_default m (str "content") (JStr (str "")) in
  let content :=
    match content with
    | JStr s => JList [JDict [(str "type", JStr (str "text")); (str "text", JStr s)]]
    | other => other
    end in
  JDict [(str "role", role); (str "content", content)].

(** [_messages_to_genapi]: the loop appends one converted message per
    message, in order. *)
Definition _messages_to_genapi (messages : list (list (pystr * json))) : list json :=
  List.map convert_message messages.

(** A stored message as the dict the clients receive. *)
Definition message_dict (m : ContextManager.message) : list (pystr * json) :=
  [(str "role", JStr (ContextManager.role m));
   (str "content", JStr (ContextManager.content m))].

(** A client built with the defaults from a key, and a base URL left over
    from the OpenAI-compatible endpoint. *)
Definition sample_polling : GenAPI.config :=
  {| GenAPI.poll_interval := 2; GenAPI.poll_max_wait := 120 |}.
Definition openai_style_base : pystr := str " https://api.gen-api.ru/openai/v1/ ".

End GenAPIClient.

Module PollClock.
Import GenAPI.

(** The reading of the clock at the loop test [k] rounds after the test
    made at [now] before round [i], when none of these rounds returns. *)
Fixpoint clock_after (cfg : config) (w : world) (now : Z) (i k : nat) : Z :=
match k with
| O => now
| S k' => clock_after cfg w (now + Z.max 0 (elapsed w i) + poll_interval cfg) (S i) k'
end.

(** The reading of the clock when the loop of [_poll_until_done] starts. *)
Definition loop_start (cfg : config) (w : world) : Z :=
poll_entry w + poll_interval cfg + Z.max 0 (wake_delay w).

(** The job is accepted, two status requests find it in progress (the
    second after a network error), the next one gets a server error. *)
Definition fails_at_third_poll : world :=
{| post_result := GenAPISamples.ok JsonSamples.processing_42;
   get_result := λ _ i,
     match i with
     | 0%nat => GenAPISamples.ok JsonSamples.still_processing
     | 1%nat => HttpRaises HttpxTimeout
     | _ => HttpResponds {| status_code := 503; json_body := inl ValueError |}
     end;
   poll_entry := 0; wake_delay := 0; elapsed := λ _, 3 |}.

(** A text with no white space at either end, and not empty. *)
Definition trimmed (t : pystr) : Prop :=
t ≠ []
∧ (∀ c, head t = Some c → Py.isspace c = false)
∧ (∀ c, last t = Some c → Py.isspace c = false).

(** A block whose returned text, if any, is trimmed. *)
Definition returns_trimmed (f : flow) : Prop :=
match f with
| Return (Some t) => trimmed t
| _ => True
end.

(** The four fields a finished job is searched for text, in order. *)
Definition result_keys : list string :=
["result"; "output"; "full_response"; "response"]%string.

End PollClock.

(** ** bot.py: the message handlers *)

Module Handler.
Import ContextManager.

(** What a handler can see raised: an [AiogramError], or any other
    exception. *)
Inductive bot_exn : Type :=
| AiogramError
| OtherError (e : py_exn).

(** [isinstance(e, AiogramError)] *)
Definition is_aiogram (e : bot_exn) : bool :=
match e with
| AiogramError => true
| OtherError _ => false
end.

(** The texts the handlers send: the notice that the context was
    cleared, a generated answer, the apology for a failed generation, the
    apology for a failed handling, and the apology for a failed clearing. *)
Inductive reply : Type :=
| ClearedNotice
| Generated (text : pystr)
| GenerationApology
| ProcessingApology
| ClearFailedApology.

(** The five model names read from [config]. *)
Record models : Type := Models {
  OLLAMA_MODEL : pystr;
  OPENAI_MODEL : pystr;
  DEEPSEEK_MODEL : pystr;
  GENAPI_MODEL : pystr;
  PROXYAPI_MODEL : pystr
}.

(** What surrounds a handler: [str.lower], the [generate_response] of the
    active client (called with a model name and the context, [TEMPERATURE]
    and [MAX_TOKENS] being fixed), and what the [n]-th [message.answer] of
    the handler does: [None] when the text is delivered, else the exception
    it raises. *)
Record surroundings : Type := Surroundings {
  lower : pystr → pystr;
  generate_response : pystr → list message → completion (option pystr);
  deliver : nat → option bot_exn
}.

(** What a handler changes: the context store, the texts delivered so
    far, and the number of [message.answer] calls made. *)
Record state : Type := State {
  store : t;
  sent : list reply;
  answers : nat
}.

(** A computation that changes the state and returns or raises; what it
    changed before raising stays changed. *)
Definition M (A : Type) : Type := state → state * (bot_exn + A).

Definition ret {A : Type} (x : A) : M A := λ s, (s, inr x).
Definition throw {A : Type} (e : bot_exn) : M A := λ s, (s, inl e).
Definition bind {A B : Type} (m : M A) (k : A → M B) : M B :=
λ s, match m s with
     | (s', inr x) => k x s'
     | (s', inl e) => (s', inl e)
     end.

(** [try: body except ...: handler] *)
Definition try_except {A : Type} (body : M A) (handler : bot_exn → M A) : M A :=
λ s, match body s with
     | (s', inl e) => handler e s'
     | done => done
     end.

Notation "'do' x <- m ; k" := (bind m (λ x, k))
  (at level 10, x name, m at level 100, k at level 200).
Notation "'do' '_' <- m ; k" := (bind m (λ _, k))
  (at level 10, m at level 100, k at level 200).

(** A call of a method of [context_manager] that returns nothing. *)
Definition on_store (f : t → t) : M unit :=
λ s, ({| store := f (store s); sent := sent s; answers := answers s |}, inr tt).

(** [context_manager.get_context(user_id)] *)
Definition read_context (user_id : Z) : M (list message) :=
λ s, let '(store', context) := get_context (store s) user_id in
     ({| store := store'; sent := sent s; answers := answers s |}, inr context).

(** [await message.answer(text)] *)
Definition answer (env : surroundings) (text : reply) : M unit :=
λ s, match deliver env (answers s) with
     | None => ({| store := store s; sent := sent s ++ [text];
                   answers := S (answers s) |}, inr tt)
     | Some e => ({| store := store s; sent := sent s;
                     answers := S (answers s) |}, inl e)
     end.

(** [client.generate_response(messages=context, model=..., ...)] *)
Definition call_client (env : surroundings) (model : pystr) (context : list message)
  : M (option pystr) :=
λ s, match generate_response env model context with
     | Returned response => (s, inr response)
     | Raised e => (s, inl (OtherError e))
     end.

(** The chain [if _key == "ollama": ... elif ... else: response = None]. *)
Definition dispatch (env : surroundings) (names : models) (_key : pystr)
    (context : list message) : M (option pystr) :=
if pystr_eqb _key (str "ollama") then call_client env (OLLAMA_MODEL names) context
else if pystr_eqb _key (str "openai") then call_client env (OPENAI_MODEL names) context
else if pystr_eqb _key (str "deepseek") then call_client env (DEEPSEEK_MODEL names) context
else if pystr_eqb _key (str "genapi") then call_client env (GENAPI_MODEL names) context
else if pystr_eqb _key (str "proxyapi") then call_client env (PROXYAPI_MODEL names) context
else ret None.

(** The phrase that clears the context, in lower case (Cyrillic, given
    by its code points). *)
Definition clear_phrase : pystr :=
[1086; 1095; 1080; 1089; 1090; 1080; 1090; 1100; 32;
 1082; 1086; 1085; 1090; 1077; 1082; 1089; 1090]%N.

(** [if response:] *)
Definition truthy_response (response : option pystr) : option pystr :=
match response with
| Some (c :: t) => Some (c :: t)
| _ => None
end.

(** [handle_message], for a message of the user [user_id] whose [text] is
    [None] when the message carries no text. *)
Definition handle_message (env : surroundings) (names : models) (_key : pystr)
    (user_id : Z) (text : option pystr) : M unit :=
match text with
| None => throw (OtherError AttributeError)
| Some raw =>
    let user_message := Py.strip raw in
    try_except
      (if pystr_eqb (lower env user_message) clear_phrase then
         do _ <- on_store (λ cm, clear_context cm user_id);
         answer env ClearedNotice
       else
         do _ <- on_store (λ cm, add_message cm user_id (str "user") user_message);
         do context <- read_context user_id;
         do response <- dispatch env names _key context;
         match truthy_response response with
         | Some text =>
             do _ <- on_store (λ cm, add_message cm user_id (str "assistant") text);
             answer env (Generated text)
         | None => answer env GenerationApology
         end)
      (λ e,
         if is_aiogram e then ret tt
         else
           try_except (answer env ProcessingApology)
                      (λ e', if is_aiogram e' then ret tt else throw e'))
end.

(** [_clear_context_handler], behind the commands [/clear] and [/reset]. *)
Definition _clear_context_handler (env : surroundings) (user_id : Z) : M unit :=
try_except
  (do _ <- on_store (λ cm, clear_context cm user_id);
   answer env ClearedNotice)
  (λ _, answer env ClearFailedApology).

(** The two [except] clauses of [handle_message], as one handler. *)
Definition recover (env : surroundings) (e : bot_exn) : M unit :=
if is_aiogram e then ret tt
else
  try_except (answer env ProcessingApology)
             (λ e', if is_aiogram e' then ret tt else throw e').

(** The state a handler starts in. *)
Definition start (cm : t) : state := {| store := cm; sent := []; answers := 0 |}.

(** The model name the chain picks for a key, if the key is one of the
    five. *)
Definition model_for (names : models) (_key : pystr) : option pystr :=
if pystr_eqb _key (str "ollama") then Some (OLLAMA_MODEL names)
else if pystr_eqb _key (str "openai") then Some (OPENAI_MODEL names)
else if pystr_eqb _key (str "deepseek") then Some (DEEPSEEK_MODEL names)
else if pystr_eqb _key (str "genapi") then Some (GENAPI_MODEL names)
else if pystr_eqb _key (str "proxyapi") then Some (PROXYAPI_MODEL names)
else None.

(** What the chain yields for a context: the answer of the client called
    with the model of the key, [None] for a key outside the five. *)
Definition generation (env : surroundings) (names : models) (_key : pystr)
    (context : list message) : completion (option pystr) :=
match model_for names _key with
| Some model => generate_response env model context
| None => Returned None
end.

(** Sample surroundings: ASCII lower case left as it is, a client that
    answers "hello" to a context ending in "hi" and fails otherwise, and
    every answer delivered. *)
Definition default_models : models :=
{| OLLAMA_MODEL := str "qwen3:4b"; OPENAI_MODEL := str "gpt-4o-mini";
   DEEPSEEK_MODEL := str "deepseek-chat"; GENAPI_MODEL := str "gpt-4o-mini";
   PROXYAPI_MODEL := str "gpt-4o-mini" |}.

Definition echo_client (model : pystr) (context : list message)
  : completion (option pystr) :=
match last context with
| Some m => if pystr_eqb (content m) (str "hi") then Returned (Some (str "hello"))
            else Returned None
| None => Raised IndexError
end.

Definition friendly : surroundings :=
{| lower := λ s, s; generate_response := echo_client; deliver := λ _, None |}.

End Handler.

Module ClientSamples.
Import JsonSamples.

Local Open Scope string_scope.

(** An answer of the Ollama server, and one that lacks the message. *)
Definition ollama_answer : http_result :=
HttpResponds {| status_code := 200;
                json_body := inr (obj [("model", txt "qwen3:4b");
                                       ("message", obj [("role", txt "assistant");
                                                        ("content", txt "hello")]);
                                       ("done", JBool true)]) |}.
Definition ollama_no_message : http_result :=
HttpResponds {| status_code := 200; json_body := inr (obj [("done", JBool true)]) |}.

(** What the Ollama client makes of a response whose body decodes:
    [message.content] when the status is no error, the body is an object
    and its [message] is an object, and [None] otherwise. *)
Definition ollama_reading (code : Z) (data : json) : json :=
if Ollama.is_http_error code then JNull
else
  match data with
  | JDict d =>
      match Py.get d "message" with
      | JDict m => Py.get m "content"
      | _ => JNull
      end
  | _ => JNull
  end.

End ClientSamples.

(** ** The constructors of the clients and the start-up of bot.py *)

Module Startup.

(** [OllamaClient.__init__]: the two attributes it sets. *)
Record ollama : Type := Ollama { ollama_base_url : pystr; ollama_timeout : Z }.

Definition ollama_init (base_url : pystr) (timeout : Z) : completion ollama :=
Returned {| ollama_base_url := base_url; ollama_timeout := timeout |}.

(** The default arguments of [OllamaClient.__init__]. *)
Definition ollama_default_url : pystr := str "http://localhost:11434/api/chat".
Definition ollama_default_timeout : Z := 300.

(** A client of [openai_client.py], [deepseek_client.py] or
    [proxyapi_client.py]: its key and, for the latter two, its base URL. *)
Record sdk_client : Type := SdkClient {
  sdk_api_key : pystr;
  sdk_base_url : option pystr;
  sdk_timeout : Z
}.

(** [OpenAIClient.__init__], given [OPENAI_API_KEY] and how the
    constructors of the libraries ([httpx.Client], [OpenAI]) end. *)
Definition openai_init (OPENAI_API_KEY : option pystr) (library : completion unit)
    (api_key : option pystr) (timeout : Z) : completion sdk_client :=
match PyStr.opt_or_opt api_key OPENAI_API_KEY with
| Some (c :: k) =>
    match library with
    | Returned _ => Returned {| sdk_api_key := c :: k; sdk_base_url := None;
                                sdk_timeout := timeout |}
    | Raised e => Raised e
    end
| _ => Raised ValueError
end.

(** [DeepSeekClient.__init__] and [ProxyAPIClient.__init__], which differ
    in the configured key and base URL and in the base URL they fall back
    to. *)
Definition based_init (fallback : pystr) (CONFIG_KEY : option pystr)
    (CONFIG_BASE_URL : pystr) (library : completion unit)
    (api_key base_url : option pystr) (timeout : Z) : completion sdk_client :=
let api_key := PyStr.opt_or_opt api_key CONFIG_KEY in
let base_url :=
  PyStr.or_ (Py.strip (PyStr.or_ (PyStr.opt_or base_url CONFIG_BASE_URL) []))
            fallback in
match api_key with
| Some (c :: k) =>
    match library with
    | Returned _ => Returned {| sdk_api_key := c :: k; sdk_base_url := Some base_url;
                                sdk_timeout := timeout |}
    | Raised e => Raised e
    end
| _ => Raised ValueError
end.

Definition deepseek_init := based_init (str "https://api.deepseek.com").
Definition proxyapi_init := based_init (str "https://api.proxyapi.ru/openai/v1").

(** A client object of one of the five classes. *)
Inductive built : Type :=
| BuiltOllama (c : ollama)
| BuiltOpenAI (c : sdk_client)
| BuiltDeepSeek (c : sdk_client)
| BuiltGenAPI (c : GenAPIClient.client)
| BuiltProxyAPI (c : sdk_client).

(** What [config] holds at import, and how the library constructors end
    for each of the four clients that use one. *)
Record settings : Type := Settings {
  OPENAI_API_KEY : option pystr;
  DEEPSEEK_API_KEY : option pystr;
  DEEPSEEK_BASE_URL : pystr;
  GENAPI_API_KEY : option pystr;
  GENAPI_BASE_URL : pystr;
  PROXYAPI_API_KEY : option pystr;
  PROXYAPI_BASE_URL : pystr;
  openai_library : completion unit;
  deepseek_library : completion unit;
  genapi_library : completion unit;
  proxyapi_library : completion unit
}.

(** [try: x = X() except Exception as e: logger.warning(...)], the
    variable staying [None] when the constructor raises. *)
Definition attempt {A : Type} (wrap : A → built) (c : completion A) : option built :=
match c with
| Returned x => Some (wrap x)
| Raised _ => None
end.

(** [GenAPIClient()] with the constructor of [httpx.Client] at its end. *)
Definition genapi_init (cfg : settings) : completion GenAPIClient.client :=
match GenAPIClient.init (GENAPI_API_KEY cfg) (GENAPI_BASE_URL cfg) None None 60
        {| GenAPI.poll_interval := 2; GenAPI.poll_max_wait := 120 |} with
| Returned c =>
    match genapi_library cfg with
    | Returned _ => Returned c
    | Raised e => Raised e
    end
| Raised e => Raised e
end.

(** The five [try] blocks of bot.py, each calling a constructor without
    arguments. *)
Definition construct (cfg : settings) : Bot.clients built :=
{| Bot.ollama_client :=
     attempt BuiltOllama (ollama_init ollama_default_url ollama_default_timeout);
   Bot.openai_client :=
     attempt BuiltOpenAI (openai_init (OPENAI_API_KEY cfg) (openai_library cfg) None 30);
   Bot.deepseek_client :=
     attempt BuiltDeepSeek
       (deepseek_init (DEEPSEEK_API_KEY cfg) (DEEPSEEK_BASE_URL cfg)
                      (deepseek_library cfg) None None 60);
   Bot.genapi_client := attempt BuiltGenAPI (genapi_init cfg);
   Bot.proxyapi_client :=
     attempt BuiltProxyAPI
       (proxyapi_init (PROXYAPI_API_KEY cfg) (PROXYAPI_BASE_URL cfg)
                      (proxyapi_library cfg) None None 60) |}.

(** [_active_provider] after the start-up, or the error that stops it. *)
Definition active_provider (AI_PROVIDER : option pystr) (cfg : settings)
  : Bot.startup (Bot.active built) :=
Bot.select AI_PROVIDER (construct cfg).

(** Whether a library constructor ends without raising. *)
Definition succeeds (c : completion unit) : bool :=
match c with
| Returned _ => true
| Raised _ => false
end.

(** A non-empty string, as a key must be. *)
Definition usable (key : option pystr) : bool :=
match key with
| Some (_ :: _) => true
| _ => false
end.

(** Settings with a DeepSeek key only. *)
Definition deepseek_only : settings :=
{| OPENAI_API_KEY := None; DEEPSEEK_API_KEY := Some (str "sk-1");
   DEEPSEEK_BASE_URL := str "https://api.deepseek.com";
   GENAPI_API_KEY := None; GENAPI_BASE_URL := str "https://api.gen-api.ru/api/v1";
   PROXYAPI_API_KEY := Some []; PROXYAPI_BASE_URL := str "https://api.proxyapi.ru/openai/v1";
   openai_library := Returned tt; deepseek_library := Returned tt;
   genapi_library := Returned tt; proxyapi_library := Returned tt |}.

End Startup.
(** * Properties *)

Lemma pystr_eqb_eq (a b : pystr) : pystr_eqb a b = true ↔ a = b.
Proof. unfold pystr_eqb. apply bool_decide_eq_true. Qed.

(** A slice [l[i:]] is a suffix of [l]. *)
Lemma slice_from_suffix {A : Type} (i : Z) (l : list A) :
  slice_from i l `suffix_of` l.
Proof. unfold slice_from. apply suffix_drop. Qed.

(** With [0 < k <= len(l)], [l[-k:]] keeps exactly the last [k] elements. *)
Lemma slice_from_last {A : Type} (k : Z) (l : list A) :
  0 < k ≤ Z.of_nat (length l) →
  length (slice_from (- k) l) = Z.to_nat k.
Proof.
  intros Hk. unfold slice_from.
  destruct (Z.ltb_spec (- k) 0) as [_|?]; [|lia].
  rewrite length_drop. lia.
Qed.

Module ContextManagerFacts.
Import ContextManager ContextSpec Samples.

Section Split.

(** The loop of [add_message] computes the two filters. *)
Lemma split_roles_acc (l : list message) (acc : list message * list message) :
  fold_left split_step l acc
  = (acc.1 ++ List.filter is_system l,
     acc.2 ++ List.filter (λ m, negb (is_system m)) l).
Proof.
  revert acc. induction l as [|m l IH]; intros [sys others]; simpl.
  - by rewrite !app_nil_r.
  - rewrite IH. unfold split_step. simpl.
    destruct (is_system m); simpl; by rewrite <- ?app_assoc.
Qed.

Lemma split_roles_filter (l : list message) :
  split_roles l
  = (List.filter is_system l, List.filter (λ m, negb (is_system m)) l).
Proof. unfold split_roles. by rewrite split_roles_acc. Qed.

Lemma filter_system_others (l : list message) :
  List.filter is_system (List.filter (λ m, negb (is_system m)) l) = [].
Proof.
  induction l as [|m l IH]; [done|]. simpl.
  destruct (is_system m) eqn:E; simpl; [done|]. by rewrite E.
Qed.

Lemma filter_system_idem (l : list message) :
  List.filter is_system (List.filter is_system l) = List.filter is_system l.
Proof.
  induction l as [|m l IH]; [done|]. simpl.
  destruct (is_system m) eqn:E; simpl; [|done]. by rewrite E, IH.
Qed.

Lemma filter_system_suffix_others (l rest : list message) :
  rest `suffix_of` List.filter (λ m, negb (is_system m)) l →
  List.filter is_system rest = [] ∧ Forall (λ m, is_system m = false) rest.
Proof.
  intros [front Hfront].
  assert (Forall (λ m, is_system m = false) (front ++ rest)) as Hall.
  { rewrite <- Hfront. apply Forall_forall. intros m Hm.
    apply list_elem_of_In, filter_In in Hm as [_ Hm]. by destruct (is_system m). }
  apply Forall_app in Hall as [_ Hall]. split; [|done].
  clear Hfront. induction Hall as [|m rest Hm _ IH]; [done|].
  simpl. by rewrite Hm.
Qed.

(** What an eviction pass leaves: all system messages, in order, then
    a suffix of the other messages. *)
Lemma evict_shape (max : Z) (l : list message) :
  ∃ others,
    evict max l = List.filter is_system l ++ others
    ∧ others `suffix_of` List.filter (λ m, negb (is_system m)) l.
Proof.
  unfold evict. rewrite split_roles_filter.
  destruct (_ >? _).
  - eexists. split; [done|]. apply slice_from_suffix.
  - eexists. split; [done|]. done.
Qed.

Lemma filter_split_length (l : list message) :
  (length (List.filter is_system l)
   + length (List.filter (λ m, negb (is_system m)) l) = length l)%nat.
Proof.
  induction l as [|m l IH]; [done|]. simpl.
  destruct (is_system m); simpl; lia.
Qed.

End Split.

Section Store.

Lemma ensure_lookup (ctxs : gmap Z (list message)) (u : Z) :
  default [] (ensure ctxs u !! u) = default [] (ctxs !! u).
Proof.
  unfold ensure. destruct (ctxs !! u) eqn:E; simpl.
  - by rewrite E.
  - by rewrite lookup_insert_eq.
Qed.

Lemma ensure_lookup_ne (ctxs : gmap Z (list message)) (u v : Z) :
  u ≠ v → ensure ctxs u !! v = ctxs !! v.
Proof.
  intros Hne. unfold ensure. destruct (ctxs !! u); [done|].
  by rewrite lookup_insert_ne.
Qed.

(** [add_message] replaces the user's context by [appended]. *)
Lemma add_message_context (self : t) (u : Z) (r c : pystr) :
  context_of (add_message self u r c) u
  = appended (max_messages self) (context_of self u) (Message r c).
Proof.
  unfold context_of, add_message. simpl.
  by rewrite lookup_insert_eq, ensure_lookup.
Qed.

(** ... and leaves every other user's entry alone. *)
Lemma add_message_frame (self : t) (u v : Z) (r c : pystr) :
  u ≠ v → contexts (add_message self u r c) !! v = contexts self !! v.
Proof.
  intros Hne. unfold add_message. simpl.
  by rewrite lookup_insert_ne, ensure_lookup_ne.
Qed.

Lemma elem_of_get_user_ids (self : t) (u : Z) :
  u ∈ get_user_ids self ↔ is_Some (contexts self !! u).
Proof.
  unfold get_user_ids. rewrite list_elem_of_fmap. split.
  - intros [[k l] [-> Hkl]]. apply elem_of_map_to_list in Hkl. by eexists.
  - intros [l Hl]. exists (u, l). split; [done|]. by apply elem_of_map_to_list.
Qed.

Lemma clear_context_lookup (self : t) (u : Z) :
  contexts (clear_context self u) !! u = None.
Proof.
  unfold clear_context. destruct (contexts self !! u) eqn:E; simpl.
  - apply lookup_delete_eq.
  - done.
Qed.

Lemma clear_context_lookup_ne (self : t) (u v : Z) :
  u ≠ v → contexts (clear_context self u) !! v = contexts self !! v.
Proof.
  intros Hne. unfold clear_context. destruct (contexts self !! u); simpl; [|done].
  by apply lookup_delete_ne.
Qed.

(** A call that is neither an append nor a get for [u] keeps [u]
    absent. *)
Lemma step_keeps_absent (self : t) (u : Z) (c : call) :
  touches u c = false →
  contexts self !! u = None →
  contexts (step self c) !! u = None.
Proof.
  intros Htouch Habsent.
  destruct c as [v|v r c|v| |v]; unfold step, touches in *; try done.
  - apply bool_decide_eq_false in Htouch. simpl. by rewrite ensure_lookup_ne.
  - apply bool_decide_eq_false in Htouch. by rewrite add_message_frame.
  - destruct (decide (v = u)) as [->|Hne].
    + apply clear_context_lookup.
    + by rewrite clear_context_lookup_ne.
Qed.

Lemma run_keeps_absent (calls : list call) (self : t) (u : Z) :
  forallb (λ c, negb (touches u c)) calls = true →
  contexts self !! u = None →
  contexts (run self calls) !! u = None.
Proof.
  revert self. induction calls as [|c calls IH]; intros self Hcalls Habsent; [done|].
  simpl in Hcalls. apply andb_prop in Hcalls as [Hc Hcalls].
  apply negb_true_iff in Hc. simpl. apply IH; [done|].
  by apply step_keeps_absent.
Qed.

(** An append or a get for [u] makes [u] present. *)
Lemma step_touch_present (self : t) (u : Z) (c : call) :
  touches u c = true → is_Some (contexts (step self c) !! u).
Proof.
  destruct c as [v|v r c|v| |v]; unfold step, touches; try done; intros Hv;
    apply bool_decide_eq_true in Hv as ->; simpl.
  - unfold ensure. destruct (contexts self !! u) eqn:E.
    + rewrite E. by eexists.
    + rewrite lookup_insert_eq. by eexists.
  - rewrite lookup_insert_eq. by eexists.
Qed.

End Store.

(** C10. [add_message] never drops a message whose role is system,
    wherever it stands: the system messages of the context after the call
    are those of the old context with the new message, in the same order.
    And whenever the eviction pass runs (the appended context is longer
    than [max_messages]), the result is all those system messages followed
    by messages that are not system messages. *)
Theorem add_message_keeps_system_first (self : t) (u : Z) (r c : pystr) :
  let before := context_of self u ++ [Message r c] in
  let after := context_of (add_message self u r c) u in
  List.filter is_system after = List.filter is_system before
  ∧ (max_messages self < Z.of_nat (length before) →
     ∃ others,
       after = List.filter is_system before ++ others
       ∧ Forall (λ m, is_system m = false) others).
Proof.
  intros before after. subst after. rewrite add_message_context.
  fold before. unfold appended. fold before.
  destruct (evict_shape (max_messages self) before) as (others & Hev & Hsuf).
  apply filter_system_suffix_others in Hsuf as [Hnone Hall].
  split.
  - destruct (_ >? _); [|done].
    by rewrite Hev, List.filter_app, filter_system_idem, Hnone, app_nil_r.
  - intros Hlong. exists others.
    destruct (Z.gtb_spec (Z.of_nat (length before)) (max_messages self)); [done|lia].
Qed.

Lemma add_message_keeps_system_first_witness :
  context_of (add_message mid_system 7 (str "user") (str "c")) 7
  = [sys_msg "s"; user_msg "c"]
  ∧ ∃ others,
      context_of (add_message mid_system 7 (str "user") (str "c")) 7
      = List.filter is_system (context_of mid_system 7 ++ [user_msg "c"]) ++ others
      ∧ Forall (λ m, is_system m = false) others.
Proof.
  split; [vm_compute; reflexivity|].
  apply (add_message_keeps_system_first mid_system 7 (str "user") (str "c")).
  vm_compute. reflexivity.
Defined.

(** C9. After [clear_context], a [get_context] for the user returns the
    empty list, and as long as no append and no get for that user is made
    the user stays out of [get_user_ids] (and a get still returns the
    empty list); the next append or get for the user brings it back. *)
Theorem clear_then_get_empty (self : t) (u : Z) (calls : list call) :
  forallb (λ c, negb (touches u c)) calls = true →
  (get_context (clear_context self u) u).2 = []
  ∧ (u ∉ get_user_ids (run (clear_context self u) calls))
  ∧ (get_context (run (clear_context self u) calls) u).2 = []
  ∧ ∀ c, touches u c = true →
         u ∈ get_user_ids (step (run (clear_context self u) calls) c).
Proof.
  intros Hcalls.
  pose proof (run_keeps_absent calls _ u Hcalls (clear_context_lookup self u))
    as Habsent.
  repeat split.
  - unfold get_context. simpl. by rewrite ensure_lookup, clear_context_lookup.
  - rewrite elem_of_get_user_ids, Habsent. by intros [? ?].
  - unfold get_context. simpl. by rewrite ensure_lookup, Habsent.
  - intros c Hc. apply elem_of_get_user_ids. by apply step_touch_present.
Qed.

Lemma clear_then_get_empty_witness :
  (get_context (clear_context two_users 1) 1).2 = []
  ∧ (1 ∉ get_user_ids (run (clear_context two_users 1) other_calls))
  ∧ (get_context (run (clear_context two_users 1) other_calls) 1).2 = []
  ∧ ∀ c, touches 1 c = true →
         1 ∈ get_user_ids (step (run (clear_context two_users 1) other_calls) c).
Proof.
  apply (clear_then_get_empty two_users 1 other_calls). vm_compute. reflexivity.
Defined.

(** C1, at the failing input. With [max_messages = 2], appending a system
    message and two user messages leaves a context of three messages:
    the eviction pass runs, finds no more than [max_messages] messages
    that are not system messages, and cuts nothing. *)
Theorem add_message_exceeds_max_messages :
  max_messages pinned = 2
  ∧ get_context_length pinned 1 = 3
  ∧ context_of pinned 1 = [sys_msg "s"; user_msg "a"; user_msg "b"].
Proof. vm_compute. done. Qed.

(** C2, at the same input. The append pushes the context over
    [max_messages], yet no message is evicted, where keeping
    [max_messages - count(system)] of the other messages would leave the
    system message and the latest user message. *)
Theorem eviction_keeps_too_many :
  appended 2 [sys_msg "s"; user_msg "a"] (user_msg "b")
  = [sys_msg "s"; user_msg "a"; user_msg "b"]
  ∧ spec_eviction 2 [sys_msg "s"; user_msg "a"; user_msg "b"]
    = [sys_msg "s"; user_msg "b"].
Proof. vm_compute. done. Qed.

(** X1. Where the eviction does what the specification says: when the
    messages that are not system messages outnumber [max_messages] and
    the system messages do not fill it, the pass keeps the system messages
    and the [max_messages - count(system)] latest of the others, and the
    context has [max_messages] messages. *)
Theorem evict_cuts_to_max (max : Z) (l : list message) :
  max < Z.of_nat (length (List.filter (λ m, negb (is_system m)) l)) →
  Z.of_nat (length (List.filter is_system l)) < max →
  evict max l = spec_eviction max l
  ∧ Z.of_nat (length (evict max l)) = max.
Proof.
  intros Hothers Hsys. unfold evict, spec_eviction.
  rewrite split_roles_filter.
  set (sys := List.filter is_system l) in *.
  set (others := List.filter (λ m, negb (is_system m)) l) in *.
  destruct (Z.gtb_spec (Z.of_nat (length others)) max) as [_|?]; [|lia].
  assert (slice_from (- (max - Z.of_nat (length sys))) others
          = last_n (max - Z.of_nat (length sys)) others) as ->.
  { unfold slice_from, last_n.
    destruct (Z.ltb_spec (- (max - Z.of_nat (length sys))) 0); [|lia].
    f_equal. lia. }
  split; [done|].
  rewrite length_app. unfold last_n. rewrite length_drop. lia.
Qed.

Lemma evict_cuts_to_max_witness :
  evict 2 [user_msg "a"; sys_msg "s"; user_msg "b"; user_msg "c"]
  = spec_eviction 2 [user_msg "a"; sys_msg "s"; user_msg "b"; user_msg "c"]
  ∧ Z.of_nat (length (evict 2 [user_msg "a"; sys_msg "s"; user_msg "b"; user_msg "c"])) = 2.
Proof.
  apply (evict_cuts_to_max 2 [user_msg "a"; sys_msg "s"; user_msg "b"; user_msg "c"]);
    vm_compute; reflexivity.
Defined.

(** X2. A context without system messages stays within a positive
    [max_messages]. *)
Theorem add_message_bound_without_system (max : Z) (old : list message) (msg : message) :
  1 ≤ max →
  Z.of_nat (length old) ≤ max →
  List.filter is_system (old ++ [msg]) = [] →
  Z.of_nat (length (appended max old msg)) ≤ max.
Proof.
  intros Hmax Hold Hnosys. unfold appended.
  destruct (Z.gtb_spec (Z.of_nat (length (old ++ [msg]))) max) as [Hlong|?]; [|lia].
  unfold evict. rewrite split_roles_filter, Hnosys. simpl.
  pose proof (filter_split_length (old ++ [msg])) as Hlen.
  rewrite Hnosys in Hlen. simpl in Hlen.
  set (others := List.filter (λ m, negb (is_system m)) (old ++ [msg])) in *.
  destruct (Z.gtb_spec (Z.of_nat (length others)) max) as [_|?]; [|lia].
  rewrite Z.sub_0_r, slice_from_last; lia.
Qed.

Lemma add_message_bound_without_system_witness :
  Z.of_nat (length (appended 2 [user_msg "a"; user_msg "b"] (user_msg "c"))) ≤ 2.
Proof.
  apply (add_message_bound_without_system 2 [user_msg "a"; user_msg "b"] (user_msg "c"));
    vm_compute; congruence.
Defined.

End ContextManagerFacts.

Module ContextManagerMore.
Import ContextManager ContextSpec Samples StoreCalls ContextManagerFacts.

(** The two filters of the eviction pass split a list without losing or
    repeating a message. *)
Lemma filter_split_permutation (l : list message) :
  List.filter is_system l ++ List.filter (λ m, negb (is_system m)) l ≡ₚ l.
Proof.
  induction l as [|m l IH]; [done|]. simpl.
  destruct (is_system m); simpl.
  - by constructor.
  - rewrite <- Permutation_middle. by constructor.
Qed.

Lemma filter_others_all (l : list message) :
  Forall (λ m, is_system m = false) l →
  List.filter (λ m, negb (is_system m)) l = l.
Proof.
  induction 1 as [|m l Hm _ IH]; [done|]. simpl. by rewrite Hm, IH.
Qed.

Lemma filter_others_system (l : list message) :
  List.filter (λ m, negb (is_system m)) (List.filter is_system l) = [].
Proof.
  induction l as [|m l IH]; [done|]. simpl.
  destruct (is_system m) eqn:E; simpl; [|done]. by rewrite E.
Qed.

Lemma last_drop_lt {A : Type} (l : list A) (n : nat) :
  (n < length l)%nat → last (drop n l) = last l.
Proof.
  intros Hn. rewrite <- (take_drop n l) at 2.
  rewrite last_app. destruct (last (drop n l)) eqn:E; [done|].
  apply last_None in E. apply (f_equal length) in E.
  rewrite length_drop in E. simpl in E. lia.
Qed.

(** X3. A sequence of calls that name other users only leaves a user's
    entry as it was, whether the user had one or not, and no call changes
    [max_messages]. *)
Theorem calls_leave_other_users (self : t) (v : Z) (calls : list call) :
  forallb (λ c, negb (concerns v c)) calls = true →
  contexts (run self calls) !! v = contexts self !! v
  ∧ max_messages (run self calls) = max_messages self.
Proof.
  revert self. induction calls as [|c calls IH]; intros self Hcalls; [done|].
  simpl in Hcalls. apply andb_prop in Hcalls as [Hc Hcalls].
  apply negb_true_iff in Hc. simpl.
  destruct (IH (step self c) Hcalls) as [-> ->]. clear IH Hcalls.
  destruct c as [u|u r c|u| |u]; unfold step, concerns in *;
    try apply bool_decide_eq_false in Hc.
  - simpl. by rewrite ensure_lookup_ne.
  - by rewrite add_message_frame.
  - split; [by apply clear_context_lookup_ne|].
    unfold clear_context. by destruct (contexts self !! u).
  - done.
  - done.
Qed.

Lemma calls_leave_other_users_witness :
  contexts (run two_users calls_of_others) !! 1 = contexts two_users !! 1
  ∧ max_messages (run two_users calls_of_others) = max_messages two_users.
Proof.
  apply (calls_leave_other_users two_users 1 calls_of_others).
  vm_compute. reflexivity.
Defined.

(** X4. [add_message] neither invents nor repeats a message: the context
    after the call holds, up to order, only messages of the old context
    and the new one, each at most as often as before, so it is at most one
    message longer. *)
Theorem add_message_no_new_messages (self : t) (u : Z) (r c : pystr) :
  context_of (add_message self u r c) u ⊆+ context_of self u ++ [Message r c]
  ∧ (length (context_of (add_message self u r c) u)
     ≤ S (length (context_of self u)))%nat.
Proof.
  assert (context_of (add_message self u r c) u
          ⊆+ context_of self u ++ [Message r c]) as Hsub.
  { rewrite add_message_context. unfold appended.
    set (l := context_of self u ++ [Message r c]).
    destruct (_ >? _); [|done].
    destruct (evict_shape (max_messages self) l) as (others & -> & Hsuf).
    rewrite <- (filter_split_permutation l) at 2.
    apply submseteq_app; [done|].
    destruct Hsuf as [front ->]. apply sublist_submseteq, sublist_inserts_l. done. }
  split; [done|].
  apply submseteq_length in Hsub. rewrite length_app in Hsub. simpl in Hsub. lia.
Qed.

(** X5. As long as the system messages (the new message counted) do not
    outnumber [max_messages], the message just added is in the context
    after the call, and when it is not a system message it is the last
    one. *)
Theorem add_message_keeps_newest (self : t) (u : Z) (r c : pystr) :
  Z.of_nat (length (List.filter is_system (context_of self u ++ [Message r c])))
    ≤ max_messages self →
  Message r c ∈ context_of (add_message self u r c) u
  ∧ (is_system (Message r c) = false →
     last (context_of (add_message self u r c) u) = Some (Message r c)).
Proof.
  intros Hsys. rewrite add_message_context. unfold appended.
  set (m := Message r c) in *. set (l := context_of self u ++ [m]) in *.
  assert (is_system m = false → last (evict (max_messages self) l) = Some m) as Hlast.
  { intros Hm. unfold evict. rewrite split_roles_filter.
    set (sys := List.filter is_system l) in *.
    assert (List.filter (λ x, negb (is_system x)) l
            = List.filter (λ x, negb (is_system x)) (context_of self u) ++ [m]) as ->.
    { subst l. rewrite List.filter_app. simpl. by rewrite Hm. }
    set (others := List.filter _ (context_of self u) ++ [m]).
    assert (last others = Some m) as Ho by apply last_snoc.
    assert (0 < length others)%nat as Hlen.
    { subst others. rewrite length_app. simpl. lia. }
    destruct (_ >? _).
    - rewrite last_app. unfold slice_from.
      rewrite last_drop_lt; [by rewrite Ho|].
      destruct (Z.ltb_spec (- (max_messages self - Z.of_nat (length sys))) 0); lia.
    - by rewrite last_app, Ho. }
  destruct (Z.of_nat (length l) >? max_messages self).
  - split; [|done].
    destruct (is_system m) eqn:Hm.
    + unfold evict. rewrite split_roles_filter.
      apply elem_of_app. left. apply list_elem_of_In, filter_In. split; [|done].
      apply in_or_app. right. by left.
    + apply last_Some_elem_of. by apply Hlast.
  - split; [|intros _; apply last_snoc].
    apply elem_of_app. right. by apply list_elem_of_singleton.
Qed.

Lemma add_message_keeps_newest_witness :
  Message (str "user") (str "c") ∈ context_of (add_message mid_system 7 (str "user") (str "c")) 7
  ∧ (is_system (Message (str "user") (str "c")) = false →
     last (context_of (add_message mid_system 7 (str "user") (str "c")) 7)
     = Some (Message (str "user") (str "c"))).
Proof.
  apply (add_message_keeps_newest mid_system 7 (str "user") (str "c")).
  vm_compute. discriminate.
Defined.

(** Beyond that bound the new message can be lost: with [max_messages = 1]
    and three system messages before a user message, a second user message
    is dropped together with the first. *)
Lemma add_message_can_drop_newest :
  appended 1 [sys_msg "a"; sys_msg "b"; sys_msg "c"; user_msg "u"] (user_msg "v")
  = [sys_msg "a"; sys_msg "b"; sys_msg "c"].
Proof. reflexivity. Qed.

(** X6. Reading a context never changes what any user's history is: the
    list [get_context] returns is the user's stored context (empty when
    there is none), a second read gives the same and changes nothing more,
    and every user's context and length are as before; [get_context_length]
    counts the messages [get_context] returns. *)
Theorem get_context_reads (self : t) (u : Z) :
  (get_context self u).2 = context_of self u
  ∧ get_context (get_context self u).1 u = get_context self u
  ∧ get_context_length self u = Z.of_nat (length (get_context self u).2)
  ∧ ∀ v, context_of (get_context self u).1 v = context_of self v
         ∧ get_context_length (get_context self u).1 v = get_context_length self v.
Proof.
  unfold get_context, context_of, get_context_length. simpl.
  rewrite ensure_lookup. split; [done|]. split; [|split; [done|]].
  - f_equal.
    + f_equal. unfold ensure at 1.
      destruct (ensure (contexts self) u !! u) eqn:E; [done|].
      unfold ensure in E. destruct (contexts self !! u) eqn:E'; [congruence|].
      by rewrite lookup_insert_eq in E.
    + by rewrite !ensure_lookup.
  - intros v. destruct (decide (u = v)) as [->|Hne].
    + by rewrite ensure_lookup.
    + by rewrite ensure_lookup_ne.
Qed.

(** X7. Eviction takes the oldest of the messages that are not system
    messages: those left after [add_message] are the latest ones of the
    old context with the new message, in their order of arrival. *)
Theorem add_message_evicts_oldest (self : t) (u : Z) (r c : pystr) :
  List.filter (λ m, negb (is_system m)) (context_of (add_message self u r c) u)
  `suffix_of`
  List.filter (λ m, negb (is_system m)) (context_of self u ++ [Message r c]).
Proof.
  rewrite add_message_context. unfold appended.
  set (l := context_of self u ++ [Message r c]).
  destruct (_ >? _); [|done].
  destruct (evict_shape (max_messages self) l) as (others & -> & Hsuf).
  rewrite List.filter_app, filter_others_system. simpl.
  rewrite filter_others_all; [done|].
  by apply filter_system_suffix_others in Hsuf as [_ ?].
Qed.

End ContextManagerMore.

Module BotFacts.
Import Bot BotSamples.

Section Selection.
Context {Client : Type}.
Implicit Types (cs : clients Client) (l : list (pystr * pystr * option Client)).

(** The loop stops at the first entry whose client was built. *)
Lemma first_available_Some l key name c :
  first_available l = Some (key, name, c)
  ↔ ∃ front back,
      l = front ++ (key, name, Some c) :: back
      ∧ Forall (λ e, e.2 = None) front.
Proof.
  induction l as [|[[k n] [c'|]] l IH]; simpl.
  - split; [done|]. intros ([|? ?] & ? & ? & _); done.
  - split.
    + intros [= -> -> ->]. exists [], l. by split.
    + intros ([|e front] & back & Heq & Hfront); simplify_eq/=; [done|].
      by apply Forall_cons in Hfront as [? _].
  - rewrite IH. split.
    + intros (front & back & -> & Hfront).
      exists ((k, n, None) :: front), back. split; [done|]. by constructor.
    + intros ([|e front] & back & Heq & Hfront); simplify_eq/=.
      exists front, back. split; [done|]. by apply Forall_cons in Hfront as [_ ?].
Qed.

Lemma first_available_None l :
  first_available l = None ↔ Forall (λ e, e.2 = None) l.
Proof.
  induction l as [|[[k n] [c'|]] l IH]; simpl.
  - split; [by constructor|done].
  - split; [done|]. by intros [? _]%Forall_cons.
  - rewrite IH. split.
    + intros ?. by constructor.
    + by intros [_ ?]%Forall_cons.
Qed.

(** Looking a key up in the five entries: each of the five keys finds
    its own client, any other key finds nothing. *)
Lemma map_get_entries cs key :
  map_get (entries cs) key =
    if pystr_eqb (str "ollama") key then Some (str "Ollama", ollama_client cs)
    else if pystr_eqb (str "openai") key then Some (str "OpenAI", openai_client cs)
    else if pystr_eqb (str "deepseek") key then Some (str "DeepSeek", deepseek_client cs)
    else if pystr_eqb (str "genapi") key then Some (str "GenAPI", genapi_client cs)
    else if pystr_eqb (str "proxyapi") key then Some (str "ProxyAPI", proxyapi_client cs)
    else None.
Proof. reflexivity. Qed.

(** A key outside the five stops the start-up with the first error. *)
Lemma select_unknown_key cs key :
  key ≠ [] → map_get (entries cs) key = None →
  select (Some key) cs = inl UnknownProviderKey.
Proof.
  intros Hkey Hget. unfold select.
  destruct key as [|c k]; [done|]. cbv beta iota zeta delta [given]. by rewrite Hget.
Qed.

(** One of the five keys whose client was not built falls through to
    the last check of the start-up. *)
Lemma select_unbuilt_key cs key name :
  key ≠ [] → map_get (entries cs) key = Some (name, None) →
  select (Some key) cs = inl NoProviderAvailable.
Proof.
  intros Hkey Hget. unfold select.
  destruct key as [|c k]; [done|]. cbv beta iota zeta delta [given]. by rewrite Hget.
Qed.

(** No start-up ends with the error of the second [raise]. *)
Lemma select_never_not_constructible (AI_PROVIDER : option pystr) cs :
  select AI_PROVIDER cs ≠ inl ProviderNotConstructible.
Proof.
  unfold select. cbv zeta. destruct (given AI_PROVIDER) as [key|].
  - destruct (map_get (entries cs) key) as [[name [c|]]|];
      unfold and_then, raise; congruence.
  - destruct (first_available (entries cs)); unfold and_then, raise; congruence.
Qed.

End Selection.

(** C3, at the failing input. With [AI_PROVIDER = "openai"] and only the
    Ollama client built, the start-up fails with the error reserved for
    an empty result, not with the one for a provider that could not be
    built; that error is not reached from any input. A key outside the
    five does fail with the error for an unknown key. *)
Theorem explicit_unbuilt_key_reports_no_provider :
  select (Some (str "openai")) only_ollama = inl NoProviderAvailable
  ∧ (∀ (AI_PROVIDER : option pystr) (cs : clients nat),
       select AI_PROVIDER cs ≠ inl ProviderNotConstructible)
  ∧ select (Some (str "opnai")) only_ollama = inl UnknownProviderKey.
Proof.
  split; [reflexivity|]. split; [|reflexivity].
  intros p cs. apply select_never_not_constructible.
Qed.

(** C8. Without an explicit key (none, or the empty string) the loop
    walks ollama, openai, deepseek, genapi, proxyapi in this order and the
    active provider is the first entry whose client was built, whatever
    comes after it; clients that failed to build before it are skipped,
    and the start-up fails only when none was built. With the DeepSeek
    client alone, DeepSeek is chosen. *)
Theorem default_selection_first_built {Client : Type} (cs : clients Client) :
  (entries cs).*1.*1
    = [str "ollama"; str "openai"; str "deepseek"; str "genapi"; str "proxyapi"]
  ∧ select (Some []) cs = select None cs
  ∧ (∀ key name c,
       select None cs = inr (key, name, c)
       ↔ ∃ front back,
           entries cs = front ++ (key, name, Some c) :: back
           ∧ Forall (λ e, e.2 = None) front)
  ∧ (∀ e,
       select None cs = inl e
       ↔ e = NoProviderAvailable ∧ Forall (λ e, e.2 = None) (entries cs))
  ∧ (∀ c genapi proxyapi,
       ollama_client cs = None → openai_client cs = None →
       deepseek_client cs = Some c →
       genapi_client cs = genapi → proxyapi_client cs = proxyapi →
       select None cs = inr (str "deepseek", str "DeepSeek", c)).
Proof.
  split; [reflexivity|]. split; [reflexivity|].
  assert (select None cs
          = match first_available (entries cs) with
            | Some a => inr a
            | None => inl NoProviderAvailable
            end) as Hsel by reflexivity.
  split; [|split].
  - intros key name c. rewrite <- first_available_Some, Hsel.
    destruct (first_available (entries cs)); split; intros ?; by simplify_eq.
  - intros e. rewrite <- first_available_None, Hsel.
    destruct (first_available (entries cs)); split;
      (intros [? ?] || intros ?); by simplify_eq.
  - intros c g p Ho Ha Hd _ _. destruct cs as [o a d g' p']. simpl in *.
    subst. reflexivity.
Qed.

Lemma default_selection_first_built_witness :
  select None only_deepseek = inr (str "deepseek", str "DeepSeek", 3%nat).
Proof.
  destruct (default_selection_first_built only_deepseek) as (_ & _ & _ & _ & Hds).
  apply (Hds 3%nat None None); reflexivity.
Defined.

End BotFacts.

Module ExtractFacts.
Import GenAPI FlowShape JsonSamples.

Section Extract.
Context `{Repr}.

Lemma strip_or_none_nonempty (s t : pystr) :
  strip_or_none s = Some t → t ≠ [].
Proof. unfold strip_or_none. destruct (Py.strip s); naive_solver. Qed.

Lemma proper_strip (s : pystr) : proper (Return (strip_or_none s)).
Proof.
  unfold proper. destruct (strip_or_none s) as [[|c t]|] eqn:E; [|done..].
  by apply strip_or_none_nonempty in E.
Qed.

Lemma proper_seq (a b : flow) : proper a → proper b → proper (a >>> b).
Proof. by destruct a. Qed.

Lemma proper_for_each {A : Type} (l : list A) (body : A → flow) :
  (∀ x, proper (body x)) → proper (for_each l body).
Proof.
  intros Hbody. induction l as [|x l IH]; [done|].
  simpl. by apply proper_seq.
Qed.

Lemma proper_return_if_str (v : json) : proper (return_if_str v).
Proof. destruct v; try done. apply proper_strip. Qed.

Lemma proper_text_part (part : json) : proper (text_part part).
Proof.
  destruct part; try done. simpl.
  destruct (Py.eq_str _ _); [apply proper_return_if_str|done].
Qed.

Lemma proper_message_content (msg : json) : proper (message_content msg).
Proof. destruct msg; try done. apply proper_return_if_str. Qed.

Lemma proper_parts (v : json) :
  proper match v with
         | JList parts => for_each parts text_part
         | _ => Fallthrough
         end.
Proof. destruct v; try done. apply proper_for_each, proper_text_part. Qed.

Lemma proper_first_pass (item : json) : proper (first_pass item).
Proof.
  destruct item; try done. unfold first_pass.
  apply proper_seq; [apply proper_message_content|].
  apply proper_seq; [apply proper_return_if_str|apply proper_parts].
Qed.

Lemma proper_second_pass (item : json) : proper (second_pass item).
Proof.
  destruct item; try done. unfold second_pass.
  destruct (Py.eq_str _ _); [|done].
  apply proper_seq; [apply proper_return_if_str|apply proper_parts].
Qed.

Lemma proper_from_dict (d : list (pystr * json)) : proper (from_dict d).
Proof.
  unfold from_dict. apply proper_seq; [apply proper_return_if_str|].
  apply proper_seq.
  { destruct (Py.get d "choices") as [| | | | |[|first ?]|]; try done.
    apply proper_message_content. }
  apply proper_seq; [apply proper_parts|done].
Qed.

Lemma proper_from_list (l : list json) : proper (from_list l).
Proof.
  unfold from_list. apply proper_seq.
  { destruct l as [|[] ?]; try done. apply proper_strip. }
  apply proper_seq; [apply proper_for_each, proper_first_pass|].
  apply proper_seq; [apply proper_for_each, proper_second_pass|done].
Qed.

(** The extractor never yields an empty string: its result is either
    absent or a text that passes [if text:]. *)
Lemma extract_nonempty (output : json) (t : pystr) :
  _extract_text_from_output output = Some t → t ≠ [].
Proof.
  destruct output as [| | | |s|l|d]; simpl; try done.
  - apply strip_or_none_nonempty.
  - pose proof (proper_from_list l) as Hp.
    destruct (from_list l) as [[[|]|]|]; simpl in *; naive_solver.
  - pose proof (proper_from_dict d) as Hp.
    destruct (from_dict d) as [[[|]|]|]; simpl in *; naive_solver.
Qed.

Lemma truthy_text_extract (output : json) :
  truthy_text (_extract_text_from_output output)
  = _extract_text_from_output output.
Proof.
  destruct (_extract_text_from_output output) as [[|c t]|] eqn:E; try done.
  by apply extract_nonempty in E.
Qed.

(** C5. The extractor on the inputs the specification lists: a plain
    string, a list of string fragments, an OpenAI-shaped mapping and a
    mapping with a list of content parts yield their text; the empty
    mapping, [None], the empty list, every number and boolean, and
    mappings and lists whose nesting misses the expected shape yield
    nothing. *)
Theorem extract_examples :
  _extract_text_from_output (txt "hello") = Some (str "hello")
  ∧ _extract_text_from_output (JList [txt "he"; txt "llo"]) = Some (str "he llo")
  ∧ _extract_text_from_output openai_shaped = Some (str "hi")
  ∧ _extract_text_from_output content_parts = Some (str "x")
  ∧ _extract_text_from_output (obj []) = None
  ∧ _extract_text_from_output JNull = None
  ∧ _extract_text_from_output (JList []) = None
  ∧ (∀ z, _extract_text_from_output (JInt z) = None)
  ∧ (∀ f, _extract_text_from_output (JFloat f) = None)
  ∧ (∀ b, _extract_text_from_output (JBool b) = None)
  ∧ Forall (λ v, _extract_text_from_output v = None) malformed.
Proof.
  repeat split; try reflexivity.
  repeat constructor.
Qed.

End Extract.

End ExtractFacts.

Lemma isinstance_Exception (e : py_exn) : isinstance e ClsException = true.
Proof. by destruct e. Qed.

Module GenAPIFacts.
Import GenAPI JsonSamples GenAPISamples ExtractFacts.

Section Poll.
Context `{Repr}.

(** A status response that is not terminal lets the round run to its
    end, whether it is an answer or an exception. *)
Lemma poll_try_transient (r : http_result) :
  terminal r = false → poll_try r = Returned None.
Proof.
  unfold terminal, poll_try, poll_body.
  destruct r as [e|[code [e|data]]]; simpl.
  - done.
  - by intros ->%orb_false_elim%proj1.
  - intros [-> Hstatus]%orb_false_elim. simpl.
    destruct data; simpl; try done.
    by apply orb_false_elim in Hstatus as [-> ->].
Qed.

(** A terminal status response ends the polling with a return. *)
Lemma poll_try_terminal (r : http_result) :
  terminal r = true → ∃ o, poll_try r = Returned (Some o).
Proof.
  unfold terminal, poll_try, poll_body.
  destruct r as [e|[code [e|data]]]; simpl; [done|..].
  - rewrite orb_false_r. intros ->. by eexists.
  - destruct (negb (code =? 200)); simpl; [by eexists|].
    destruct data; simpl; try done.
    destruct (Py.eq_str _ "success"); simpl; [by eexists|].
    intros ->. by eexists.
Qed.

(** No round lets an exception out. *)
Lemma poll_try_returns (r : http_result) : ∃ v, poll_try r = Returned v.
Proof.
  destruct (terminal r) eqn:E.
  - apply poll_try_terminal in E as [o ->]. by eexists.
  - rewrite poll_try_transient by done. by eexists.
Qed.

(** Every status request of the loop is made at a reading of the clock
    between the one the loop starts with and the deadline. *)
Lemma poll_loop_times (fuel : nat) (cfg : config) (w : world) (rid : json)
    (deadline now : Z) (i : nat) :
  0 ≤ poll_interval cfg →
  Forall (λ t, now ≤ t < deadline)
         (get_times (poll_loop fuel cfg w rid deadline now i).1).
Proof.
  intros Hint. revert now i.
  induction fuel as [|fuel IH]; intros now i; simpl; [constructor|].
  destruct (Z.ltb_spec now deadline) as [Hlt|_]; [|constructor].
  destruct (poll_try_returns (get_result w rid i)) as [[o|] ->]; simpl.
  { repeat constructor; lia. }
  unfold sleep. destruct (Z.ltb_spec (poll_interval cfg) 0); [lia|].
  specialize (IH (now + Z.max 0 (elapsed w i) + poll_interval cfg) (S i)).
  destruct (poll_loop _ _ _ _ _ _ _) as [evs r]. simpl in *.
  constructor; [lia|].
  eapply Forall_impl; [exact IH|]. simpl. lia.
Qed.

(** When every round takes time (the sleep is positive, or the request
    is not instantaneous) and no terminal answer is among the status
    requests that fit before the deadline, a loop with enough fuel ends at
    the deadline. *)
Lemma poll_loop_timeout (fuel : nat) (cfg : config) (w : world) (rid : json)
    (deadline now : Z) (i : nat) (rounds : Z) :
  0 ≤ poll_interval cfg →
  (∀ j : nat, 0 < poll_interval cfg + Z.max 0 (elapsed w j)) →
  (∀ j : nat, Z.of_nat j < rounds → terminal (get_result w rid j) = false) →
  Z.of_nat i + (deadline - now) ≤ rounds →
  Z.max 0 (deadline - now) < Z.of_nat fuel →
  (poll_loop fuel cfg w rid deadline now i).2
  = Some (Returned (Absent PollTimeout)).
Proof.
  intros Hint Hround Htrans. revert now i.
  induction fuel as [|fuel IH]; intros now i Hrounds Hfuel; [lia|].
  simpl. destruct (Z.ltb_spec now deadline) as [Hlt|_]; [|done].
  rewrite poll_try_transient by (apply Htrans; lia).
  unfold sleep. destruct (Z.ltb_spec (poll_interval cfg) 0); [lia|].
  specialize (IH (now + Z.max 0 (elapsed w i) + poll_interval cfg) (S i)).
  specialize (Hround i).
  destruct (poll_loop _ _ _ _ _ _ _) as [evs r]. simpl in *.
  apply IH; lia.
Qed.

End Poll.

(** C4. [_poll_until_done] first sleeps one [poll_interval] and makes
    every status request after it, before the deadline that lies
    [poll_max_wait] after the reading of the clock at the end of that
    sleep. When every round of the loop takes time (a positive
    [poll_interval], or a request that is not instantaneous) and none of
    the status requests that fit before the deadline gets a terminal
    answer (an exception counts as none), the call ends with the time-out,
    for which the caller receives [None]. *)
Theorem poll_until_done_deadline `{Repr} (cfg : config) (w : world) (rid : json) :
  0 ≤ poll_interval cfg →
  let start := poll_entry w + poll_interval cfg + Z.max 0 (wake_delay w) in
  let deadline := start + poll_max_wait cfg in
  (∀ fuel, ∃ evs r,
      _poll_until_done fuel cfg w rid = (Sleep (poll_interval cfg) :: evs, r)
      ∧ Forall (λ t, start ≤ t < deadline) (get_times evs))
  ∧ ((∀ i : nat, 0 < poll_interval cfg + Z.max 0 (elapsed w i)) →
     (∀ i : nat, Z.of_nat i < poll_max_wait cfg →
                 terminal (get_result w rid i) = false) →
     ∀ fuel, (Z.to_nat (poll_max_wait cfg) < fuel)%nat →
       (_poll_until_done fuel cfg w rid).2 = Some (Returned (Absent PollTimeout))
       ∧ to_optional (Absent PollTimeout) = None).
Proof.
  intros Hint start deadline. unfold _poll_until_done, sleep.
  destruct (Z.ltb_spec (poll_interval cfg) 0); [lia|]. fold start. fold deadline.
  split.
  - intros fuel.
    pose proof (poll_loop_times fuel cfg w rid deadline start 0 Hint) as Ht.
    destruct (poll_loop _ _ _ _ _ _ _) as [evs r]. by exists evs, r.
  - intros Hround Htrans fuel Hfuel. split; [|done].
    pose proof (poll_loop_timeout fuel cfg w rid deadline start 0
                  (poll_max_wait cfg) Hint Hround Htrans) as Hto.
    destruct (poll_loop _ _ _ _ _ _ _) as [evs r]. simpl in *.
    apply Hto; subst deadline; lia.
Qed.

Lemma poll_until_done_deadline_witness :
  (@_poll_until_done sample_repr 200 defaults never_done (JInt 42)).2
  = Some (Returned (Absent PollTimeout)).
Proof.
  assert (0 ≤ poll_interval defaults) as Hint by (vm_compute; discriminate).
  destruct (@poll_until_done_deadline sample_repr defaults never_done (JInt 42) Hint)
    as [_ Hto].
  apply Hto; [intros i; vm_compute; reflexivity| |vm_compute; lia].
  intros i _. unfold never_done. simpl. by destruct (_ =? _)%nat.
Defined.

(** C6. What [generate_response] makes of the answer to the submit.
    A status code of 400 or more ends the call at once with the failure
    of that code (401, 402, 404, or the generic one), the POST being the
    only request made. Below 400, with a JSON object as body: status
    success gives the text extracted from [output], or a failure when
    there is none; status failed gives a failure; any other status gives
    a failure when [request_id] is missing, and otherwise the call goes
    on as [_poll_until_done] with that request id. Every failure reaches
    the caller as [None]. *)
Theorem submit_response_cases `{Repr} (fuel : nat) (cfg : config) (w : world)
    (code : Z) (body : py_exn + json) :
  post_result w = HttpResponds {| status_code := code; json_body := body |} →
  (400 ≤ code →
     generate_response fuel cfg w
     = ([Post], Some (Returned (Absent (http_failure code)))))
  ∧ (code < 400 → ∀ d, body = inr (JDict d) →
     let status := Py.get d "status" in
     let request_id := Py.get d "request_id" in
     (Py.eq_str status "success" = true →
        generate_response fuel cfg w
        = ([Post],
           Some (Returned
                   match _extract_text_from_output (Py.get d "output") with
                   | Some text => Text text
                   | None => Absent ExtractionFailure
                   end)))
     ∧ (Py.eq_str status "failed" = true →
        generate_response fuel cfg w = ([Post], Some (Returned (Absent JobFailed))))
     ∧ (Py.eq_str status "success" = false → Py.eq_str status "failed" = false →
        (request_id = JNull →
           generate_response fuel cfg w
           = ([Post], Some (Returned (Absent MissingRequestId))))
        ∧ (request_id ≠ JNull →
           generate_response fuel cfg w
           = (Post :: (_poll_until_done fuel cfg w request_id).1,
              handle <$> (_poll_until_done fuel cfg w request_id).2))))
  ∧ (∀ why, to_optional (Absent why) = None).
Proof.
  intros Hpost. unfold generate_response, submit_body. rewrite Hpost.
  cbv beta iota zeta delta [status_code json_body].
  split; [|split; [|done]].
  - intros Hcode. unfold http_failure.
    destruct (Z.eqb_spec code 404) as [->|?]; [done|].
    destruct (Z.eqb_spec code 401) as [->|?]; [done|].
    destruct (Z.eqb_spec code 402) as [->|?]; [done|].
    destruct (Z.geb_spec code 400); [done|lia].
  - intros Hcode d ->.
    destruct (Z.eqb_spec code 404); [lia|].
    destruct (Z.eqb_spec code 401); [lia|].
    destruct (Z.eqb_spec code 402); [lia|].
    destruct (Z.geb_spec code 400); [lia|].
    cbv beta iota delta [as_dict].
    set (status := Py.get d "status"). set (request_id := Py.get d "request_id").
    split; [|split].
    + intros ->. rewrite truthy_text_extract.
      by destruct (_extract_text_from_output _).
    + intros Hfailed. rewrite Hfailed.
      destruct (Py.eq_str status "success") eqn:Hs; [|done].
      destruct status; try done.
      apply pystr_eqb_eq in Hs, Hfailed. rewrite Hs in Hfailed.
      vm_compute in Hfailed. discriminate.
    + intros -> ->. split.
      * by intros ->.
      * intros Hrid.
        destruct (_poll_until_done fuel cfg w request_id) as [evs r] eqn:E.
        destruct request_id; try done; by rewrite E.
Qed.

Lemma submit_response_cases_witness :
  @generate_response sample_repr 5 defaults done_at_first_poll
  = ([Post; Sleep 2; Get (JInt 42) 1002], Some (Returned (Text (str "done")))).
Proof.
  destruct (@submit_response_cases sample_repr 5 defaults done_at_first_poll
              200 (inr processing_42) eq_refl) as (_ & Hbody & _).
  pose proof (Hbody ltac:(lia) _ eq_refl) as Hstatus. cbv zeta in Hstatus.
  destruct Hstatus as (_ & _ & Hpoll).
  destruct (Hpoll eq_refl eq_refl) as [_ Hgo].
  rewrite Hgo; [|done]. vm_compute. reflexivity.
Defined.

End GenAPIFacts.

Module PyStrFacts.
Import PyStr.

Lemma starts_with_app (sub rest : pystr) : starts_with sub (sub ++ rest) = true.
Proof.
  induction sub as [|a sub IH]; [done|]. simpl. by rewrite N.eqb_refl, IH.
Qed.

Lemma contains_here (sub s : pystr) : starts_with sub s = true → contains sub s = true.
Proof. intros Hs. destruct s; simpl in *; by rewrite Hs. Qed.

Lemma contains_app_r (sub front s : pystr) :
  contains sub s = true → contains sub (front ++ s) = true.
Proof.
  intros Hs. induction front as [|a front IH]; [done|].
  simpl. rewrite IH. apply orb_true_r.
Qed.

(** A string holds what was put in its middle. *)
Lemma contains_middle (sub front rest : pystr) :
  contains sub (front ++ sub ++ rest) = true.
Proof. apply contains_app_r, contains_here, starts_with_app. Qed.


Lemma last_rev {A : Type} (l : list A) : last (rev l) = head l.
Proof. destruct l; [done|]. simpl. apply last_snoc. Qed.


End PyStrFacts.

Module GenAPIClientFacts.
Import GenAPI GenAPIClient PyStr PyStrFacts.


(** X9. Whatever the base URL and the model, the URL a request is posted
    to contains ["/networks/"]; a base URL that has it already is used as
    it is, without the model. *)
Theorem request_url_names_network (self : client) (model : pystr) :
  contains (str "/networks/") (_request_url self model) = true
  ∧ (contains (str "/networks/") (rstrip_slash (base_url self)) = true →
     _request_url self model = rstrip_slash (base_url self)).
Proof.
  unfold _request_url.
  destruct (contains (str "/networks/") (rstrip_slash (base_url self))) eqn:E.
  - by split.
  - split; [apply contains_middle|done].
Qed.

(** X10. The message format of the request and the extractor fit
    together: a message whose content is a string is sent with that
    string as its one text part, a message without role or content is sent
    with role user and an empty text part, and the extractor, run on
    converted messages, reads back the trimmed content of the first one (or
    nothing when it is blank). *)
Theorem messages_round_trip `{Repr} (m : list (pystr * json)) (s : pystr)
    (rest : list (list (pystr * json))) :
  Py.get m "content" = JStr s →
  convert_message m
  = JDict [(str "role", Py.get_default m (str "role") (JStr (str "user")));
           (str "content",
            JList [JDict [(str "type", JStr (str "text")); (str "text", JStr s)]])]
  ∧ convert_message []
    = JDict [(str "role", JStr (str "user"));
             (str "content",
              JList [JDict [(str "type", JStr (str "text")); (str "text", JStr [])]])]
  ∧ _extract_text_from_output (JList (_messages_to_genapi (m :: rest)))
    = strip_or_none s
  ∧ length (_messages_to_genapi (m :: rest)) = S (length rest).
Proof.
  intros Hcontent.
  assert (Py.get_default m (str "content") (JStr (str "")) = JStr s) as Hdefault.
  { unfold Py.get in Hcontent. clear -Hcontent.
    induction m as [|[k v] m IH]; [done|]. simpl in *.
    destruct (pystr_eqb k (str "content")); [done|by apply IH]. }
  split; [|split; [reflexivity|split]].
  - unfold convert_message. by rewrite Hdefault.
  - unfold _messages_to_genapi. simpl List.map.
    unfold convert_message at 1. rewrite Hdefault.
    reflexivity.
  - unfold _messages_to_genapi. simpl. by rewrite length_map.
Qed.

Lemma messages_round_trip_witness :
  @_extract_text_from_output GenAPISamples.sample_repr
    (JList (_messages_to_genapi
              [message_dict (Samples.user_msg " hi ");
               message_dict (Samples.sys_msg "be brief")]))
  = Some (str "hi").
Proof.
  destruct (@messages_round_trip GenAPISamples.sample_repr
              (message_dict (Samples.user_msg " hi ")) (str " hi ")
              [message_dict (Samples.sys_msg "be brief")] eq_refl)
    as (_ & _ & -> & _).
  reflexivity.
Defined.

End GenAPIClientFacts.

Module PollMore.
Import GenAPI PollClock GenAPIFacts ExtractFacts.

Section Keys.
Context `{Repr}.

Lemma scan_keys_text (d : list (pystr * json)) (keys : list string) (t : pystr) :
  scan_keys d keys = Text t
  ↔ ∃ front key back,
      keys = front ++ key :: back
      ∧ _extract_text_from_output (Py.get d key) = Some t
      ∧ Forall (λ k, _extract_text_from_output (Py.get d k) = None) front.
Proof.
  induction keys as [|key keys IH]; simpl.
  - split; [done|]. intros ([|? ?] & ? & ? & ? & _); done.
  - rewrite truthy_text_extract.
    destruct (_extract_text_from_output (Py.get d key)) as [t'|] eqn:E.
    + split.
      * intros [= ->]. exists [], key, keys. by repeat split.
      * intros ([|k front] & key' & back & Heq & Ht & Hfront); simplify_eq/=.
        -- congruence.
        -- apply Forall_cons in Hfront as [? _]. congruence.
    + rewrite IH. split.
      * intros (front & key' & back & -> & Ht & Hfront).
        exists (key :: front), key', back. repeat split; [done|]. by constructor.
      * intros ([|k front] & key' & back & Heq & Ht & Hfront); simplify_eq/=.
        exists front, key', back. repeat split; [done|].
        by apply Forall_cons in Hfront as [_ ?].
Qed.

Lemma scan_keys_absent (d : list (pystr * json)) (keys : list string) :
  (∃ why, scan_keys d keys = Absent why)
  ↔ Forall (λ k, _extract_text_from_output (Py.get d k) = None) keys.
Proof.
  induction keys as [|key keys IH]; simpl.
  - split; [by constructor|by eexists].
  - rewrite truthy_text_extract.
    destruct (_extract_text_from_output (Py.get d key)) as [t'|] eqn:E.
    + split; [by intros [? ?]|]. intros [Hk _]%Forall_cons. simpl in Hk. congruence.
    + rewrite IH. split; [by constructor|]. by intros [_ ?]%Forall_cons.
Qed.

End Keys.

(** X11. When a status request reports success, the polling ends at once
    with the text of the first of the fields [result], [output],
    [full_response], [response] that holds extractable text, fields before
    it that hold none being passed over; it ends with a failure exactly
    when none of the four holds any. *)
Theorem poll_success_priority `{Repr} (d : list (pystr * json)) :
  Py.eq_str (Py.get d "status") "success" = true →
  ∃ o,
    poll_try (HttpResponds {| status_code := 200; json_body := inr (JDict d) |})
    = Returned (Some o)
    ∧ (∀ t, o = Text t
         ↔ ∃ front key back,
             result_keys = front ++ key :: back
             ∧ _extract_text_from_output (Py.get d key) = Some t
             ∧ Forall (λ k, _extract_text_from_output (Py.get d k) = None) front)
    ∧ (o = Absent ExtractionFailure
       ↔ Forall (λ k, _extract_text_from_output (Py.get d k) = None) result_keys).
Proof.
  intros Hstatus. exists (scan_keys d result_keys). split; [|split].
  - unfold poll_try, poll_body. simpl. by rewrite Hstatus.
  - intros t. apply scan_keys_text.
  - rewrite <- scan_keys_absent. split; [by eexists|].
    intros [why Hwhy]. rewrite Hwhy. f_equal.
    clear Hstatus. revert Hwhy. generalize result_keys.
    induction l as [|k l IH]; simpl; [by intros [= <-]|].
    destruct (truthy_text _); [done|apply IH].
Qed.

Lemma poll_success_priority_witness :
  ∃ o,
    @poll_try GenAPISamples.sample_repr
      (HttpResponds {| status_code := 200;
                       json_body := inr JsonSamples.success_done |})
    = Returned (Some o).
Proof.
  destruct (@poll_success_priority GenAPISamples.sample_repr
              [(str "status", JsonSamples.txt "success");
               (str "result", JsonSamples.txt "done")] eq_refl)
    as (o & Ho & _).
  by exists o.
Defined.

Section Rounds.
Context `{Repr}.

Lemma clock_after_ge (cfg : config) (w : world) (now : Z) (i k : nat) :
  0 ≤ poll_interval cfg → now ≤ clock_after cfg w now i k.
Proof.
  intros Hint. revert now i. induction k as [|k IH]; intros now i; simpl; [lia|].
  specialize (IH (now + Z.max 0 (elapsed w i) + poll_interval cfg) (S i)). lia.
Qed.

(** A loop whose first [k] rounds run to their end and whose next round
    starts before the deadline and returns, returns what that round
    returns, after [k + 1] status requests. *)
Lemma poll_loop_first_return (k : nat) (fuel : nat) (cfg : config) (w : world)
    (rid : json) (deadline now : Z) (i : nat) (o : outcome) :
  0 ≤ poll_interval cfg →
  (∀ j, (j < k)%nat → terminal (get_result w rid (i + j)) = false) →
  poll_try (get_result w rid (i + k)) = Returned (Some o) →
  clock_after cfg w now i k < deadline →
  (k < fuel)%nat →
  (poll_loop fuel cfg w rid deadline now i).2 = Some (Returned o)
  ∧ length (get_times (poll_loop fuel cfg w rid deadline now i).1) = S k.
Proof.
  intros Hint. revert fuel now i.
  induction k as [|k IH]; intros fuel now i Htrans Hret Hclock Hfuel;
    (destruct fuel as [|fuel]; [lia|]); simpl in *.
  - destruct (Z.ltb_spec now deadline); [|lia].
    rewrite Nat.add_0_r in Hret. by rewrite Hret.
  - pose proof (clock_after_ge cfg w
      (now + Z.max 0 (elapsed w i) + poll_interval cfg) (S i) k Hint) as Hge.
    destruct (Z.ltb_spec now deadline); [|lia].
    rewrite poll_try_transient
      by (specialize (Htrans 0%nat); rewrite Nat.add_0_r in Htrans; apply Htrans; lia).
    unfold sleep. destruct (Z.ltb_spec (poll_interval cfg) 0); [lia|].
    specialize (IH fuel (now + Z.max 0 (elapsed w i) + poll_interval cfg) (S i)).
    destruct (poll_loop _ _ _ _ _ _ _) as [evs r]. simpl in *.
    destruct IH as [-> ->]; try done; try lia.
    + intros j Hj. replace (S (i + j))%nat with (i + S j)%nat by lia.
      apply Htrans. lia.
    + by replace (S (i + k))%nat with (i + S k)%nat by lia.
Qed.

End Rounds.

(** X12. The polling returns the first terminal answer: when the first
    [k] status requests get no terminal answer (an exception counts as
    none) and the next one, made before the deadline, gets one, the call
    returns what that answer stands for after [k + 1] requests, without
    reading further answers. An answer with a status code other than 200
    is a failure whatever its body. *)
Theorem poll_returns_first_terminal `{Repr} (cfg : config) (w : world)
    (rid : json) (k fuel : nat) :
  0 ≤ poll_interval cfg →
  (∀ j, (j < k)%nat → terminal (get_result w rid j) = false) →
  terminal (get_result w rid k) = true →
  clock_after cfg w (loop_start cfg w) 0 k < loop_start cfg w + poll_max_wait cfg →
  (k < fuel)%nat →
  ∃ o,
    poll_try (get_result w rid k) = Returned (Some o)
    ∧ (_poll_until_done fuel cfg w rid).2 = Some (Returned o)
    ∧ length (get_times (_poll_until_done fuel cfg w rid).1) = S k
    ∧ (∀ resp, get_result w rid k = HttpResponds resp →
               status_code resp ≠ 200 → o = Absent ApiError).
Proof.
  intros Hint Htrans Hterm Hclock Hfuel.
  destruct (poll_try_terminal _ Hterm) as [o Ho]. exists o.
  split; [done|].
  pose proof (poll_loop_first_return k fuel cfg w rid
                (loop_start cfg w + poll_max_wait cfg) (loop_start cfg w) 0 o
                Hint Htrans Ho Hclock Hfuel) as [Hres Hlen].
  unfold _poll_until_done, sleep.
  destruct (Z.ltb_spec (poll_interval cfg) 0); [lia|].
  fold (loop_start cfg w).
  destruct (poll_loop _ _ _ _ _ _ _) as [evs r]. simpl in *.
  split; [done|]. split; [done|].
  intros resp Hresp Hcode. rewrite Hresp in Ho.
  unfold poll_try, poll_body in Ho.
  destruct (Z.eqb_spec (status_code resp) 200); [done|]. simpl in Ho. congruence.
Qed.

Lemma poll_returns_first_terminal_witness :
  (@_poll_until_done GenAPISamples.sample_repr 10 GenAPISamples.defaults
     fails_at_third_poll (JInt 42)).2
  = Some (Returned (Absent ApiError)).
Proof.
  destruct (@poll_returns_first_terminal GenAPISamples.sample_repr
              GenAPISamples.defaults fails_at_third_poll (JInt 42) 2 10)
    as (o & _ & -> & _ & Hcode).
  - vm_compute. discriminate.
  - intros [|[|j]] Hj; [reflexivity|reflexivity|lia].
  - reflexivity.
  - vm_compute. reflexivity.
  - lia.
  - f_equal. f_equal. by apply (Hcode _ eq_refl).
Defined.

End PollMore.

Module ExtractMore.
Import GenAPI PollClock PyStrFacts.

Lemma lstrip_head (s : pystr) (c : N) :
  head (Py.lstrip s) = Some c → Py.isspace c = false.
Proof.
  induction s as [|a s IH]; [done|]. simpl.
  destruct (Py.isspace a) eqn:E; [done|]. simpl. by intros [= <-].
Qed.

Lemma lstrip_suffix (s : pystr) : ∃ front, s = front ++ Py.lstrip s.
Proof.
  induction s as [|a s [front IH]]; [by exists []|]. simpl.
  destruct (Py.isspace a).
  - exists (a :: front). simpl. by rewrite <- IH.
  - by exists [].
Qed.

Lemma rstrip_prefix (s : pystr) : ∃ back, s = Py.rstrip s ++ back.
Proof.
  unfold Py.rstrip. destruct (lstrip_suffix (rev s)) as [front Hfront].
  exists (rev front). rewrite <- rev_app_distr, <- Hfront. by rewrite rev_involutive.
Qed.

Lemma rstrip_last (s : pystr) (c : N) :
  last (Py.rstrip s) = Some c → Py.isspace c = false.
Proof. unfold Py.rstrip. rewrite last_rev. apply lstrip_head. Qed.

(** What [strip] leaves, if anything, has no white space at its ends. *)
Lemma strip_trimmed (s : pystr) : Py.strip s ≠ [] → trimmed (Py.strip s).
Proof.
  intros Hne. split; [done|]. split.
  - intros c Hc. unfold Py.strip in *.
    destruct (rstrip_prefix (Py.lstrip s)) as [back Hback].
    apply (lstrip_head s). rewrite Hback.
    destruct (Py.rstrip (Py.lstrip s)); [done|]. done.
  - intros c. apply rstrip_last.
Qed.

Lemma returns_trimmed_strip (s : pystr) : returns_trimmed (Return (strip_or_none s)).
Proof.
  unfold strip_or_none. pose proof (strip_trimmed s) as Ht.
  destruct (Py.strip s); [done|]. simpl. by apply Ht.
Qed.

Lemma returns_trimmed_seq (a b : flow) :
  returns_trimmed a → returns_trimmed b → returns_trimmed (a >>> b).
Proof. by destruct a. Qed.

Lemma returns_trimmed_for_each {A : Type} (l : list A) (body : A → flow) :
  (∀ x, returns_trimmed (body x)) → returns_trimmed (for_each l body).
Proof.
  intros Hbody. induction l as [|x l IH]; [done|].
  simpl. by apply returns_trimmed_seq.
Qed.

Lemma returns_trimmed_if_str (v : json) : returns_trimmed (return_if_str v).
Proof. destruct v; try done. apply returns_trimmed_strip. Qed.

Lemma returns_trimmed_text_part (part : json) : returns_trimmed (text_part part).
Proof.
  destruct part; try done. simpl.
  destruct (Py.eq_str _ _); [apply returns_trimmed_if_str|done].
Qed.

Lemma returns_trimmed_parts (v : json) :
  returns_trimmed match v with
                  | JList parts => for_each parts text_part
                  | _ => Fallthrough
                  end.
Proof.
  destruct v; try done. apply returns_trimmed_for_each, returns_trimmed_text_part.
Qed.

Lemma returns_trimmed_message (msg : json) : returns_trimmed (message_content msg).
Proof. destruct msg; try done. apply returns_trimmed_if_str. Qed.

Lemma returns_trimmed_first_pass (item : json) : returns_trimmed (first_pass item).
Proof.
  destruct item; try done. unfold first_pass.
  apply returns_trimmed_seq; [apply returns_trimmed_message|].
  apply returns_trimmed_seq; [apply returns_trimmed_if_str|apply returns_trimmed_parts].
Qed.

Lemma returns_trimmed_second_pass (item : json) : returns_trimmed (second_pass item).
Proof.
  destruct item; try done. unfold second_pass.
  destruct (Py.eq_str _ _); [|done].
  apply returns_trimmed_seq; [apply returns_trimmed_if_str|apply returns_trimmed_parts].
Qed.

Lemma returns_trimmed_from_dict (d : list (pystr * json)) : returns_trimmed (from_dict d).
Proof.
  unfold from_dict. apply returns_trimmed_seq; [apply returns_trimmed_if_str|].
  apply returns_trimmed_seq.
  { destruct (Py.get d "choices") as [| | | | |[|first ?]|]; try done.
    apply returns_trimmed_message. }
  apply returns_trimmed_seq; [apply returns_trimmed_parts|done].
Qed.

Lemma returns_trimmed_from_list `{Repr} (l : list json) : returns_trimmed (from_list l).
Proof.
  unfold from_list. apply returns_trimmed_seq.
  { destruct l as [|[] ?]; try done. apply returns_trimmed_strip. }
  apply returns_trimmed_seq; [apply returns_trimmed_for_each, returns_trimmed_first_pass|].
  apply returns_trimmed_seq; [apply returns_trimmed_for_each, returns_trimmed_second_pass|done].
Qed.

(** X13. Whatever the payload, a text the extractor returns is not empty
    and neither starts nor ends with white space: a field that holds only
    white space yields nothing rather than a blank reply. *)
Theorem extract_trimmed `{Repr} (output : json) (t : pystr) :
  _extract_text_from_output output = Some t → trimmed t.
Proof.
  destruct output as [| | | |s|l|d]; simpl; try done.
  - pose proof (returns_trimmed_strip s) as Ht.
    destruct (strip_or_none s); simpl in *; [by intros [= <-]|done].
  - pose proof (returns_trimmed_from_list l) as Ht.
    destruct (from_list l) as [[t'|]|]; simpl in *; try done. by intros [= <-].
  - pose proof (returns_trimmed_from_dict d) as Ht.
    destruct (from_dict d) as [[t'|]|]; simpl in *; try done. by intros [= <-].
Qed.

Lemma extract_trimmed_witness : trimmed (str "he llo").
Proof.
  apply (@extract_trimmed GenAPISamples.sample_repr
           (JList [JsonSamples.txt "  he"; JsonSamples.txt "llo "]) (str "he llo")).
  reflexivity.
Defined.

End ExtractMore.

Module ClientFacts.
Import JsonSamples GenAPISamples.

(** *** Ollama *)

(** Under [requests_contract] the handlers find the locals they log. *)
Lemma ollama_handlers_return (call : http_result) :
  Ollama.requests_contract call = true →
  ∀ e rb sb, Ollama.body call = Ollama.Failed e rb sb →
             Ollama.handlers e rb sb = Returned JNull.
Proof.
  unfold Ollama.requests_contract, Ollama.body.
  destruct call as [e0|[code [e0|result]]]; cbn [status_code json_body].
  - intros Hc e rb sb [= <- <- <-]. by destruct e0.
  - intros Hc e rb sb.
    destruct (Ollama.is_http_error code); intros [= <- <- <-]; [done|].
    by destruct e0.
  - intros _ e rb sb.
    destruct (Ollama.is_http_error code); [by intros [= <- <- <-]|].
    destruct result as [| | | | | |d]; try by intros [= <- <- <-].
    destruct (Py.get_default d _ _); by intros [= <- <- <-].
Qed.

(** Outside of it a handler itself fails: a [KeyError] (or an
    [HTTPError]) raised before the local it logs was assigned leaves the
    client as an [UnboundLocalError]. *)
Lemma ollama_unassigned_local :
  Ollama.generate_response (HttpRaises KeyError) = Raised UnboundLocalError
  ∧ Ollama.generate_response (HttpRaises RequestsHTTPError) = Raised UnboundLocalError.
Proof. split; reflexivity. Qed.

(** *** GenAPI *)

Lemma genapi_handle_returns (c : completion GenAPI.outcome) :
  ∃ o, GenAPI.handle c = Returned o.
Proof.
  destruct c as [o|e]; [by eexists|].
  destruct e; by eexists.
Qed.

Lemma genapi_handle_absent (e : py_exn) :
  ∃ why, GenAPI.handle (Raised e) = Returned (GenAPI.Absent why).
Proof.
  destruct e; by eexists.
Qed.

(** C7. No client lets an exception out of [generate_response], and
    whatever exception ends the [try] block, the caller receives [None]:
    for the Ollama client under what requests documents of its exceptions
    ([requests_contract]), for the three OpenAI-compatible clients and for
    the GenAPI client (at every stage of its polling) without
    condition. *)
Theorem clients_never_raise :
  (∀ call, Ollama.requests_contract call = true →
     ∃ v, Ollama.generate_response call = Returned v
          ∧ (∀ e, Ollama.failure_of call = Some e → v = JNull))
  ∧ (∀ p r,
     ∃ v, OpenAICompat.generate_response p r = Returned v
          ∧ (∀ e, OpenAICompat.body r = Raised e → v = None))
  ∧ (∀ (R : Repr) fuel cfg w,
     (∀ e, (GenAPI.generate_response fuel cfg w).2 ≠ Some (Raised e))
     ∧ (∀ e, (GenAPI.submit_body fuel cfg w).2 = Some (Raised e) →
             ∃ why, (GenAPI.generate_response fuel cfg w).2
                    = Some (Returned (GenAPI.Absent why))
                    ∧ GenAPI.to_optional (GenAPI.Absent why) = None)).
Proof.
  split; [|split].
  - intros call Hcontract. unfold Ollama.generate_response, Ollama.failure_of.
    pose proof (ollama_handlers_return call Hcontract) as Hh.
    destruct (Ollama.body call) as [v|e rb sb].
    + by exists v.
    + exists JNull. split; [by apply Hh|done].
  - intros p r. unfold OpenAICompat.generate_response.
    destruct (OpenAICompat.body r) as [v|e]; simpl.
    + by exists v.
    + exists None. split; [|done].
      by destruct e.
  - intros R fuel cfg w. unfold GenAPI.generate_response.
    destruct (GenAPI.submit_body fuel cfg w) as [evs [c|]]; simpl; split; try done.
    + intros e. destruct (genapi_handle_returns c) as [o ->]. done.
    + intros e [= ->]. destruct (genapi_handle_absent e) as [why ->]. by exists why.
Qed.

Lemma clients_never_raise_witness :
  (∃ v, Ollama.generate_response (HttpRaises RequestsConnectionError) = Returned v
        ∧ (∀ e, Ollama.failure_of (HttpRaises RequestsConnectionError) = Some e →
                v = JNull))
  ∧ (∃ v, OpenAICompat.generate_response OpenAICompat.DeepSeek
            (OpenAICompat.SdkRaises OpenAIRateLimitError) = Returned v
          ∧ (∀ e, OpenAICompat.body (OpenAICompat.SdkRaises OpenAIRateLimitError)
                  = Raised e → v = None))
  ∧ (∀ e, (@GenAPI.generate_response sample_repr 200 defaults never_done).2
          ≠ Some (Raised e)).
Proof.
  destruct clients_never_raise as (Hollama & Hopenai & Hgenapi).
  split; [|split].
  - apply Hollama. reflexivity.
  - apply Hopenai.
  - apply Hgenapi.
Defined.

End ClientFacts.

Module HandlerFacts.
Import ContextManager ContextManagerFacts Handler.

Lemma get_context_present (self : t) (u : Z) (l : list message) :
  contexts self !! u = Some l → get_context self u = (self, l).
Proof.
  intros Hl. unfold get_context, ensure. rewrite Hl. simpl. rewrite Hl.
  by destruct self.
Qed.

Lemma add_message_present (self : t) (u : Z) (r c : pystr) :
  contexts (add_message self u r c) !! u = Some (context_of (add_message self u r c) u).
Proof. unfold context_of, add_message. simpl. by rewrite lookup_insert_eq. Qed.

Ltac no_generated :=
  let Hin := fresh "Hin" in
  intros ? Hin;
  repeat (apply elem_of_cons in Hin as [Hin|Hin]; [discriminate|]);
  by apply elem_of_nil in Hin.

(** The chain calls the client with the model of the key. *)
Lemma dispatch_generation (env : surroundings) (names : models) (key : pystr)
    (context : list message) (s : state) :
  dispatch env names key context s
  = match generation env names key context with
    | Returned response => (s, inr response)
    | Raised e => (s, inl (OtherError e))
    end.
Proof.
  unfold dispatch, generation, model_for, call_client.
  repeat (destruct (pystr_eqb key _); [done|]). done.
Qed.

(** The part of [handle_message] after the test for the clearing phrase,
    up to the answer. *)
Lemma turn_steps (env : surroundings) (names : models) (key : pystr) (u : Z)
    (msg : pystr) (self : t) :
  let recorded := add_message self u (str "user") msg in
  (do _ <- on_store (λ cm, add_message cm u (str "user") msg);
   do context <- read_context u;
   do response <- dispatch env names key context;
   match truthy_response response with
   | Some text =>
       do _ <- on_store (λ cm, add_message cm u (str "assistant") text);
       answer env (Generated text)
   | None => answer env GenerationApology
   end) (start self)
  = match generation env names key (context_of recorded u) with
    | Raised e => ({| store := recorded; sent := []; answers := 0 |}, inl (OtherError e))
    | Returned response =>
        match truthy_response response with
        | Some text =>
            answer env (Generated text)
              {| store := add_message recorded u (str "assistant") text;
                 sent := []; answers := 0 |}
        | None =>
            answer env GenerationApology
              {| store := recorded; sent := []; answers := 0 |}
        end
    end.
Proof.
  intros recorded. unfold bind, on_store, read_context, start.
  cbn [store sent answers]. fold recorded.
  rewrite (get_context_present recorded u _ (add_message_present self u _ _)).
  rewrite dispatch_generation. fold recorded.
  destruct (generation env names key (context_of recorded u)) as [response|e]; [|done].
  by destruct (truthy_response response).
Qed.

(** X14. A turn that succeeds: when the text is not the clearing phrase,
    the active client, called with the model of the active key on the
    context that already holds the new user message, returns a non-empty
    answer and the answer is delivered, then the store holds the user
    message and after it the answer, the answer is the one text sent, and
    the handler returns. *)
Theorem turn_success (env : surroundings) (names : models) (key model : pystr)
    (u : Z) (raw answer_text : pystr) (self : t) :
  lower env (Py.strip raw) ≠ clear_phrase →
  model_for names key = Some model →
  generate_response env model
    (context_of (add_message self u (str "user") (Py.strip raw)) u)
  = Returned (Some answer_text) →
  answer_text ≠ [] →
  deliver env 0 = None →
  handle_message env names key u (Some raw) (start self)
  = ({| store := add_message (add_message self u (str "user") (Py.strip raw))
                             u (str "assistant") answer_text;
        sent := [Generated answer_text];
        answers := 1 |}, inr tt).
Proof.
  intros Hphrase Hmodel Hgen Htext Hdeliver. unfold handle_message, try_except.
  destruct (pystr_eqb (lower env (Py.strip raw)) clear_phrase) eqn:E.
  { by apply pystr_eqb_eq in E. }
  rewrite turn_steps. unfold generation. rewrite Hmodel, Hgen.
  destruct answer_text as [|c t]; [done|]. simpl.
  unfold answer. simpl. by rewrite Hdeliver.
Qed.

Lemma turn_success_witness :
  context_of
    (store (handle_message friendly default_models (str "deepseek") 5
              (Some (str " hi ")) (start (init 20))).1) 5
  = [Message (str "user") (str "hi"); Message (str "assistant") (str "hello")]
  ∧ sent (handle_message friendly default_models (str "deepseek") 5
            (Some (str " hi ")) (start (init 20))).1
    = [Generated (str "hello")].
Proof.
  rewrite (turn_success friendly default_models (str "deepseek") (str "deepseek-chat")
             5 (str " hi ") (str "hello") (init 20));
    try reflexivity; try (vm_compute; discriminate).
  split; reflexivity.
Defined.

(** X15. A turn that fails keeps the user's message: when the text is not
    the clearing phrase and the client returns [None] or an empty answer,
    raises, or the active key is none of the five, the store holds the user
    message and no answer after it, no generated text is sent, and the
    apology sent when the first [message.answer] goes through is the one
    for a failed generation, or for a failed handling when the client
    raised. *)
Theorem turn_failure_keeps_user_message (env : surroundings) (names : models)
    (key : pystr) (u : Z) (raw : pystr) (self : t) :
  let recorded := add_message self u (str "user") (Py.strip raw) in
  let final := (handle_message env names key u (Some raw) (start self)).1 in
  lower env (Py.strip raw) ≠ clear_phrase →
  match generation env names key (context_of recorded u) with
  | Returned response => truthy_response response = None
  | Raised _ => True
  end →
  store final = recorded
  ∧ (∀ text, Generated text ∉ sent final)
  ∧ (deliver env 0 = None →
     sent final = match generation env names key (context_of recorded u) with
                  | Returned _ => [GenerationApology]
                  | Raised _ => [ProcessingApology]
                  end).
Proof.
  intros recorded final Hphrase Hgen. subst final.
  unfold handle_message, try_except.
  destruct (pystr_eqb (lower env (Py.strip raw)) clear_phrase) eqn:E.
  { by apply pystr_eqb_eq in E. }
  rewrite turn_steps. fold recorded.
  destruct (generation env names key (context_of recorded u)) as [response|e].
  - rewrite Hgen. unfold answer, ret, throw. simpl.
    destruct (deliver env 0) as [[|e]|] eqn:D0; simpl;
      [|destruct (deliver env 1) as [[|e']|] eqn:D1; simpl|];
      (split; [done|split; [no_generated|try done]]).
  - unfold answer, ret, throw. simpl.
    destruct (deliver env 0) as [[|e']|] eqn:D0; simpl;
      (split; [done|split; [no_generated|try done]]).
Qed.

Lemma turn_failure_keeps_user_message_witness :
  store (handle_message friendly default_models (str "openai") 5
           (Some (str "what?")) (start (init 20))).1
  = add_message (init 20) 5 (str "user") (str "what?")
  ∧ sent (handle_message friendly default_models (str "openai") 5
            (Some (str "what?")) (start (init 20))).1
    = [GenerationApology].
Proof.
  destruct (turn_failure_keeps_user_message friendly default_models (str "openai") 5
              (str "what?") (init 20)) as (Hstore & _ & Hsent).
  - vm_compute. discriminate.
  - reflexivity.
  - split; [exact Hstore|]. rewrite Hsent; reflexivity.
Defined.

(** X16. The clearing phrase clears and nothing else: when the trimmed
    text in lower case is the phrase, the user's entry is removed from the
    store whatever becomes of the notice, the client is not called (the
    outcome is the same for any client), no generated text is sent, and
    the notice is the text sent when the first [message.answer] goes
    through. The handler of the commands [/clear] and [/reset] removes the
    entry in the same way. *)
Theorem clear_phrase_clears (env : surroundings) (names : models) (key : pystr)
    (u : Z) (raw : pystr) (self : t) :
  lower env (Py.strip raw) = clear_phrase →
  let final := (handle_message env names key u (Some raw) (start self)).1 in
  store final = clear_context self u
  ∧ (u ∉ get_user_ids (store final))
  ∧ (∀ client,
       handle_message
         {| lower := lower env; generate_response := client; deliver := deliver env |}
         names key u (Some raw) (start self)
       = handle_message env names key u (Some raw) (start self))
  ∧ (∀ text, Generated text ∉ sent final)
  ∧ (deliver env 0 = None → sent final = [ClearedNotice])
  ∧ store (_clear_context_handler env u (start self)).1 = clear_context self u.
Proof.
  intros Hphrase final.
  assert (store final = clear_context self u
          ∧ (∀ text, Generated text ∉ sent final)
          ∧ (deliver env 0 = None → sent final = [ClearedNotice])) as (Hstore & Hsent & Hnotice).
  { subst final. unfold handle_message, try_except. rewrite Hphrase.
    unfold pystr_eqb. rewrite bool_decide_eq_true_2 by done.
    unfold bind, on_store, answer, start, ret, throw. simpl.
    destruct (deliver env 0) as [[|e]|] eqn:D0; simpl;
      [|destruct (deliver env 1) as [[|e']|] eqn:D1; simpl|];
      (split; [done|split; [no_generated|try done]]). }
  split; [done|]. split.
  { rewrite Hstore, elem_of_get_user_ids, clear_context_lookup. by intros [? ?]. }
  split.
  { intros client. unfold handle_message. simpl lower. rewrite Hphrase.
    unfold pystr_eqb. by rewrite bool_decide_eq_true_2 by done. }
  split; [done|]. split; [done|].
  unfold _clear_context_handler, try_except, bind, on_store, answer, start. simpl.
  destruct (deliver env 0) as [e|]; simpl; [|done].
  by destruct (deliver env 1).
Qed.

Lemma clear_phrase_clears_witness :
  store (handle_message friendly default_models (str "ollama") 1
           (Some clear_phrase) (start Samples.two_users)).1
  = clear_context Samples.two_users 1.
Proof.
  apply (clear_phrase_clears friendly default_models (str "ollama") 1
           clear_phrase Samples.two_users).
  reflexivity.
Defined.

Lemma answer_store (env : surroundings) (text : reply) (s : state) :
  store (answer env text s).1 = store s.
Proof. unfold answer. by destruct (deliver env (answers s)). Qed.

Lemma recover_store (env : surroundings) (e : bot_exn) (s : state) :
  store (recover env e s).1 = store s.
Proof.
  unfold recover, try_except. destruct (is_aiogram e); [done|].
  pose proof (answer_store env ProcessingApology s) as Hs.
  destruct (answer env ProcessingApology s) as [s' [e'|[]]]; [|done].
  by destruct (is_aiogram e').
Qed.

Lemma recover_returns (env : surroundings) (e : bot_exn) (s : state) :
  (∀ n e, deliver env n = Some e → is_aiogram e = true) →
  (recover env e s).2 = inr tt.
Proof.
  intros Haio. unfold recover, try_except, answer. destruct (is_aiogram e); [done|].
  destruct (deliver env (answers s)) as [e'|] eqn:D; [|done].
  by rewrite (Haio _ _ D).
Qed.

Lemma try_recover_store (env : surroundings) (body : M unit) (s : state) :
  store (try_except body (recover env) s).1 = store (body s).1.
Proof.
  unfold try_except. destruct (body s) as [s' [e|[]]]; [|done].
  apply recover_store.
Qed.

Lemma try_recover_returns (env : surroundings) (body : M unit) (s : state) :
  (∀ n e, deliver env n = Some e → is_aiogram e = true) →
  (try_except body (recover env) s).2 = inr tt.
Proof.
  intros Haio. unfold try_except. destruct (body s) as [s' [e|[]]]; [|done].
  by apply recover_returns.
Qed.

(** The store a message with text leaves: cleared for the clearing
    phrase, else with the user message and, after a successful generation,
    the answer. *)
Lemma handle_message_store (env : surroundings) (names : models) (key : pystr)
    (u : Z) (raw : pystr) (self : t) :
  let recorded := add_message self u (str "user") (Py.strip raw) in
  let final := store (handle_message env names key u (Some raw) (start self)).1 in
  final = clear_context self u
  ∨ final = recorded
  ∨ ∃ text, final = add_message recorded u (str "assistant") text.
Proof.
  intros recorded final. subst final. unfold handle_message.
  fold (recover env). rewrite try_recover_store.
  destruct (pystr_eqb (lower env (Py.strip raw)) clear_phrase).
  - left. unfold bind, on_store, start. cbn [store sent answers].
    by rewrite answer_store.
  - right. rewrite turn_steps. fold recorded.
    destruct (generation env names key (context_of recorded u)) as [response|e];
      [|by left].
    destruct (truthy_response response) as [text|]; rewrite answer_store.
    + right. by exists text.
    + by left.
Qed.

(** X17. What a handler lets out and what it leaves alone. A message
    without text makes [handle_message] raise [AttributeError] before
    anything is stored or sent. A message with text never makes it raise
    as long as [message.answer] fails with [AiogramError] only, whatever
    the client does; and no message changes the entry of another user or
    [max_messages]. *)
Theorem handle_message_contained (env : surroundings) (names : models)
    (key : pystr) (u : Z) (text : option pystr) (self : t) :
  (text = None →
   handle_message env names key u text (start self)
   = (start self, inl (OtherError AttributeError)))
  ∧ (is_Some text →
     (∀ n e, deliver env n = Some e → is_aiogram e = true) →
     (handle_message env names key u text (start self)).2 = inr tt)
  ∧ (∀ v, v ≠ u →
       contexts (store (handle_message env names key u text (start self)).1) !! v
       = contexts self !! v)
  ∧ max_messages (store (handle_message env names key u text (start self)).1)
    = max_messages self.
Proof.
  split; [by intros ->|].
  destruct text as [raw|]; [|by split; [intros [? ?]|]].
  split.
  { intros _ Haio. unfold handle_message. fold (recover env).
    by apply try_recover_returns. }
  assert (max_messages (clear_context self u) = max_messages self) as Hmax.
  { unfold clear_context. by destruct (contexts self !! u). }
  destruct (handle_message_store env names key u raw self) as [->|[->|[reply_text ->]]].
  - split; [|done]. intros v Hv. by apply clear_context_lookup_ne.
  - split; [|done]. intros v Hv. by apply add_message_frame.
  - split; [|done]. intros v Hv. by rewrite !add_message_frame.
Qed.

Lemma handle_message_contained_witness :
  (handle_message friendly default_models (str "genapi") 5
     (Some (str "hi")) (start Samples.two_users)).2 = inr tt.
Proof.
  destruct (handle_message_contained friendly default_models (str "genapi") 5
              (Some (str "hi")) Samples.two_users) as (_ & Hret & _).
  apply Hret; [by eexists|]. intros n e. discriminate.
Defined.

End HandlerFacts.

Module ClientMore.
Import JsonSamples ClientSamples.

(** A key that is looked up with the default [{}] gives what it gives
    with the default [None], or the default. *)
Lemma get_default_dict (d : list (pystr * json)) (key : pystr) :
  Py.get_default d key (JDict []) = Py.get_default d key JNull
  ∨ (Py.get_default d key (JDict []) = JDict [] ∧ Py.get_default d key JNull = JNull).
Proof.
  induction d as [|[k v] d IH]; simpl; [by right|].
  destruct (pystr_eqb k key); [by left|done].
Qed.

(** X18. What the Ollama client returns for a response: [None] for every
    status code from 400 to 599 whatever the body, and otherwise the
    [content] of the [message] object of the body ([None] when the body is
    no object, has no [message] object, or the message no [content]); a
    body that fails to decode gives [None] as well. No exception leaves the
    client in any of these cases. *)
Theorem ollama_response_reading (code : Z) (body : py_exn + json) :
  body ≠ inl KeyError →
  Ollama.generate_response
    (HttpResponds {| status_code := code; json_body := body |})
  = Returned match body with
             | inr data => ollama_reading code data
             | inl _ => JNull
             end.
Proof.
  intros Hbody. unfold Ollama.generate_response, Ollama.body, ollama_reading.
  cbn [status_code json_body].
  destruct (Ollama.is_http_error code).
  { by destruct body. }
  destruct body as [e|data].
  - destruct e; try done.
  - destruct data as [| | | | | |d]; try done.
    unfold Py.get.
    destruct (get_default_dict d (str "message")) as [->|[-> ->]]; [|done].
    by destruct (Py.get_default d (str "message") JNull).
Qed.

Lemma ollama_response_reading_witness :
  Ollama.generate_response ollama_answer = Returned (txt "hello")
  ∧ Ollama.generate_response ollama_no_message = Returned JNull.
Proof.
  unfold ollama_answer, ollama_no_message.
  rewrite !ollama_response_reading by discriminate.
  split; reflexivity.
Defined.

(** The three OpenAI-compatible clients return the content of the
    first choice of the response and nothing else: later choices play no
    part, a response without choices gives [None], and so does every
    exception the SDK raises. *)
Lemma openai_first_choice (p : OpenAICompat.provider) (r : OpenAICompat.sdk_result) :
  OpenAICompat.generate_response p r
  = Returned match r with
             | OpenAICompat.SdkResponds choices => mjoin (head choices)
             | OpenAICompat.SdkRaises _ => None
             end.
Proof.
  unfold OpenAICompat.generate_response, OpenAICompat.body.
  destruct r as [e|[|first rest]]; [by destruct e|done|done].
Qed.

End ClientMore.

Module StartupFacts.
Import Bot Startup PollClock.

(** X19. With an explicit key, the selection is that provider or a
    failure, never another provider: the start-up yields a triple exactly
    when the key is one of the five and its client was built, and the
    triple then carries this key, its display name and this client,
    whatever other clients were built. *)
Theorem explicit_selection_no_fallback {Client : Type} (cs : clients Client)
    (AI_PROVIDER key name : pystr) (c : Client) :
  AI_PROVIDER ≠ [] →
  select (Some AI_PROVIDER) cs = inr (key, name, c)
  ↔ key = AI_PROVIDER ∧ map_get (entries cs) AI_PROVIDER = Some (name, Some c).
Proof.
  intros Hkey. unfold select.
  destruct AI_PROVIDER as [|a k]; [done|]. cbv beta iota zeta delta [given].
  destruct (map_get (entries cs) (a :: k)) as [[n [c'|]]|];
    unfold and_then, raise; split;
    (intros [? ?] || intros ?); by simplify_eq.
Qed.

Lemma explicit_selection_no_fallback_witness :
  select (Some (str "deepseek")) BotSamples.only_deepseek
  = inr (str "deepseek", str "DeepSeek", 3%nat).
Proof.
  apply explicit_selection_no_fallback; [discriminate|]. split; reflexivity.
Defined.

(** X20. Without [AI_PROVIDER] (unset or empty) the start-up never fails
    and the active provider is Ollama under its default URL, whatever keys
    are configured and however the constructors of the other clients end:
    [OllamaClient()] raises nothing, and Ollama comes first. *)
Theorem default_startup_is_ollama (cfg : settings) :
  active_provider None cfg
  = inr (str "ollama", str "Ollama",
         BuiltOllama {| ollama_base_url := ollama_default_url;
                        ollama_timeout := ollama_default_timeout |})
  ∧ active_provider (Some []) cfg = active_provider None cfg
  ∧ ∀ AI_PROVIDER, active_provider AI_PROVIDER cfg ≠ inl ProviderNotConstructible.
Proof.
  split; [reflexivity|]. split; [reflexivity|].
  intros p. apply BotFacts.select_never_not_constructible.
Qed.

(** X21. With [AI_PROVIDER] naming one of the four providers that need a
    key, the start-up succeeds exactly when a non-empty key is configured
    for it and the constructors of its libraries raise nothing, the client
    then holding that key; otherwise the start-up stops, even though the
    Ollama client was built. *)
Theorem explicit_startup_needs_key (cfg : settings) :
  (if usable (OPENAI_API_KEY cfg) && succeeds (openai_library cfg)
   then ∃ c, active_provider (Some (str "openai")) cfg
             = inr (str "openai", str "OpenAI", BuiltOpenAI c)
             ∧ OPENAI_API_KEY cfg = Some (sdk_api_key c)
   else active_provider (Some (str "openai")) cfg = inl NoProviderAvailable)
  ∧ (if usable (DEEPSEEK_API_KEY cfg) && succeeds (deepseek_library cfg)
     then ∃ c, active_provider (Some (str "deepseek")) cfg
               = inr (str "deepseek", str "DeepSeek", BuiltDeepSeek c)
               ∧ DEEPSEEK_API_KEY cfg = Some (sdk_api_key c)
     else active_provider (Some (str "deepseek")) cfg = inl NoProviderAvailable)
  ∧ (if usable (GENAPI_API_KEY cfg) && succeeds (genapi_library cfg)
     then ∃ c, active_provider (Some (str "genapi")) cfg
               = inr (str "genapi", str "GenAPI", BuiltGenAPI c)
               ∧ GENAPI_API_KEY cfg = Some (GenAPIClient.api_key c)
     else active_provider (Some (str "genapi")) cfg = inl NoProviderAvailable)
  ∧ (if usable (PROXYAPI_API_KEY cfg) && succeeds (proxyapi_library cfg)
     then ∃ c, active_provider (Some (str "proxyapi")) cfg
               = inr (str "proxyapi", str "ProxyAPI", BuiltProxyAPI c)
               ∧ PROXYAPI_API_KEY cfg = Some (sdk_api_key c)
     else active_provider (Some (str "proxyapi")) cfg = inl NoProviderAvailable).
Proof.
  destruct cfg as [ok dk db gk gb pk pb ol dl gl pl]. cbn [OPENAI_API_KEY
    DEEPSEEK_API_KEY GENAPI_API_KEY PROXYAPI_API_KEY openai_library deepseek_library
    genapi_library proxyapi_library].
  split; [|split; [|split]].
  - destruct ok as [[|c k]|], ol as [[]|e]; simpl; try reflexivity.
    eexists. split; reflexivity.
  - destruct dk as [[|c k]|], dl as [[]|e]; simpl; try reflexivity.
    eexists. split; reflexivity.
  - destruct gk as [[|c k]|], gl as [[]|e]; simpl; try reflexivity.
    eexists. split; reflexivity.
  - destruct pk as [[|c k]|], pl as [[]|e]; simpl; try reflexivity.
    eexists. split; reflexivity.
Qed.

Lemma explicit_startup_needs_key_witness :
  (∃ c, active_provider (Some (str "deepseek")) deepseek_only
        = inr (str "deepseek", str "DeepSeek", BuiltDeepSeek c)
        ∧ DEEPSEEK_API_KEY deepseek_only = Some (sdk_api_key c))
  ∧ active_provider (Some (str "proxyapi")) deepseek_only = inl NoProviderAvailable.
Proof.
  destruct (explicit_startup_needs_key deepseek_only) as (_ & Hd & _ & Hp).
  split; [exact Hd|exact Hp].
Defined.

(** X22. A DeepSeek or ProxyAPI client that is built holds a non-empty
    key and a base URL that is not empty and has no white space at either
    end: the given or configured URL trimmed, or the provider's own URL
    when that leaves nothing. *)
Theorem based_client_base_url (CONFIG_KEY : option pystr) (CONFIG_BASE_URL : pystr)
    (library : completion unit) (api_key base_url : option pystr) (seconds : Z)
    (c : sdk_client) :
  deepseek_init CONFIG_KEY CONFIG_BASE_URL library api_key base_url seconds = Returned c
  ∨ proxyapi_init CONFIG_KEY CONFIG_BASE_URL library api_key base_url seconds = Returned c →
  sdk_api_key c ≠ []
  ∧ ∃ url, sdk_base_url c = Some url ∧ trimmed url.
Proof.
  assert (∀ fallback, trimmed fallback →
            based_init fallback CONFIG_KEY CONFIG_BASE_URL library api_key base_url seconds
            = Returned c →
            sdk_api_key c ≠ [] ∧ ∃ url, sdk_base_url c = Some url ∧ trimmed url) as Hbased.
  { intros fallback Hfb. unfold based_init.
    destruct (PyStr.opt_or_opt api_key CONFIG_KEY) as [[|a k]|]; try done.
    destruct library as [[]|e]; [|done]. intros [= <-]. simpl. split; [done|].
    eexists. split; [done|].
    pose proof (ExtractMore.strip_trimmed
                  (PyStr.or_ (PyStr.opt_or base_url CONFIG_BASE_URL) [])) as Hs.
    destruct (Py.strip _); [done|]. simpl. by apply Hs. }
  intros [Hd|Hp].
  - apply (Hbased (str "https://api.deepseek.com")); [|exact Hd].
    split; [discriminate|].
    split; intros a Ha; vm_compute in Ha; injection Ha as <-; reflexivity.
  - apply (Hbased (str "https://api.proxyapi.ru/openai/v1")); [|exact Hp].
    split; [discriminate|].
    split; intros a Ha; vm_compute in Ha; injection Ha as <-; reflexivity.
Qed.

Lemma based_client_base_url_witness :
  ∃ url, sdk_base_url {| sdk_api_key := str "k"; sdk_base_url := Some (str "https://x");
                         sdk_timeout := 60 |} = Some url
         ∧ trimmed url.
Proof.
  apply (based_client_base_url None [] (Returned tt) (Some (str "k"))
           (Some (str " https://x ")) 60).
  left. reflexivity.
Defined.

End StartupFacts.
